(** * pystac datacube extension: typed views over a property mapping

    Shallow embedding of [pystac/extensions/datacube.py].  A property
    mapping is a Python [dict] with string keys; the views ([Dimension]
    and its four subclasses, [Variable], the three extension facades)
    keep a reference to one and read or write it through properties.
    Mutation is modelled by explicit state passing: a setter maps the
    mapping before the assignment to the mapping after it. *)

From Stdlib Require Import ZArith QArith.
From stdpp Require Import base option gmap strings list pretty.

Set Warnings "-register-all".
Local Open Scope string_scope.

(** ** Python values *)

(** The values a JSON document holds once it is loaded: [None], booleans,
    numbers, strings, lists and dicts with string keys.  The accessors never
    look inside a number, so a float is carried as a rational.  Two dicts are
    equal in Python when they hold the same keys with equal values, whatever
    the insertion order; a [gmap] has exactly that equality. *)
Inductive pyval : Type :=
  | PNone
  | PBool (b : bool)
  | PInt (z : Z)
  | PFloat (q : Q)
  | PStr (s : string)
  | PList (l : list pyval)
  | PDict (m : gmap string pyval).

(** [Dict[str, Any]] *)
Abbreviation props := (gmap string pyval).

(** [v is None] *)
Definition is_none (v : pyval) : bool :=
  match v with PNone => true | _ => false end.

(** [v == s] for a string literal [s]: only a [str] can be equal to it. *)
Definition eq_str (v : pyval) (s : string) : bool :=
  match v with PStr s' => bool_decide (s' = s) | _ => false end.

(** ** Exceptions *)

Inductive pyerr : Type :=
  | RequiredPropertyMissing (obj : string) (prop : string)
  | ExtensionTypeError (msg : string)
  | TypeError (msg : string).

Definition result (A : Type) : Type := pyerr + A.
Definition Ok {A} (a : A) : result A := inr a.
Definition Raise {A} (e : pyerr) : result A := inl e.

Definition rbind {A B} (r : result A) (k : A -> result B) : result B :=
  match r with inl e => inl e | inr a => k a end.

Notation "x <~ r ;; k" := (rbind r (fun x => k))
  (at level 100, r at next level, right associativity).

(** ** Built-ins *)

(** [d.get(k)]: the value under [k], [None] when the key is absent.  A key
    that holds [None] and a key that is absent read the same. *)
Definition dict_get (d : props) (k : string) : pyval :=
  default PNone (d !! k).

(** [k in d] *)
Definition dict_contains (d : props) (k : string) : bool :=
  bool_decide (is_Some (d !! k)).

(** [d[k] = v] *)
Definition dict_setitem (d : props) (k : string) (v : pyval) : props :=
  <[k := v]> d.

(** [d.pop(k, None)], for its effect on [d]: no error when [k] is absent. *)
Definition dict_pop (d : props) (k : string) : props :=
  delete k d.

(** [d.get] called on a list of positional arguments, with the arity check
    of the built-in: one or two arguments, the second being the default. *)
Definition dict_get_call (d : props) (args : list pyval) : result pyval :=
  match args with
  | [] => Raise (TypeError "get expected at least 1 argument, got 0")
  | [PStr k] => Ok (dict_get d k)
  | [PStr k; dflt] => Ok (default dflt (d !! k))
  | [PList _] | [PList _; _] => Raise (TypeError "unhashable type: 'list'")
  | [PDict _] | [PDict _; _] => Raise (TypeError "unhashable type: 'dict'")
  | [_] => Ok PNone
  | [_; dflt] => Ok dflt
  | _ => Raise (TypeError ("get expected at most 2 arguments, got "
                           +:+ pretty (length args)))
  end.

(** Modelled from the spec: [pystac.utils.get_required] is imported by the
    module and is not part of it.  "Returns the value [...] and fails with
    RequiredPropertyMissing(context, key) when absent or null"; the caller
    has already read the value with [d.get]. *)
Definition get_required (option : pyval) (obj prop : string) : result pyval :=
  if is_none option then Raise (RequiredPropertyMissing obj prop)
  else Ok option.

(** [get_required(x)]: the call with one positional argument, [obj] and
    [prop] having no default. *)
Definition get_required_1 (option : pyval) : result pyval :=
  Raise (TypeError
    "get_required() missing 2 required positional arguments: 'obj' and 'prop'").

(** ** Constants *)

Definition SCHEMA_URI : string :=
  "https://stac-extensions.github.io/datacube/v1.0.0/schema.json".

Definition DIMENSIONS_PROP : string := "cube:dimensions".
Definition VARIABLES_PROP : string := "cube:variables".

Definition DIM_TYPE_PROP : string := "type".
Definition DIM_DESC_PROP : string := "description".
Definition DIM_AXIS_PROP : string := "axis".
Definition DIM_EXTENT_PROP : string := "extent".
Definition DIM_VALUES_PROP : string := "values".
Definition DIM_STEP_PROP : string := "step".
Definition DIM_REF_SYS_PROP : string := "reference_system".
Definition DIM_UNIT_PROP : string := "unit".

Definition VAR_TYPE_PROP : string := "type".
Definition VAR_DESC_PROP : string := "description".
Definition VAR_DIMS_PROP : string := "dimensions".
Definition VAR_VALUES_PROP : string := "values".
Definition VAR_EXTENT_PROP : string := "extent".
Definition VAR_STEP_PROP : string := "step".
Definition VAR_UNIT_PROP : string := "unit".
Definition VAR_SHAPE_PROP : string := "shape".
Definition VAR_CHUNKS_PROP : string := "chunks".
Definition VAR_ATTRS_PROP : string := "attrs".

(** ** Properties of a class *)

(** A Python [property] of a view class over instances of type [T]: its
    getter, its setter when the class declares one, and whether the getter
    is annotated [Optional[...]]. *)
Record property (T : Type) : Type := Property {
  fget : T -> result pyval;
  fset : option (T -> pyval -> T);
  annotated_optional : bool
}.
Arguments Property {T} _ _ _.
Arguments fget {T} _ _.
Arguments fset {T} _.
Arguments annotated_optional {T} _.

(** Attribute lookup by name in the properties a class body declares; the
    first entry of that name is the one found. *)
Fixpoint assoc {A : Type} (name : string) (l : list (string * A)) : option A :=
  match l with
  | [] => None
  | (k, a) :: l' => if decide (k = name) then Some a else assoc name l'
  end.

(** ** Dimensions *)

(** The four concrete subclasses of the abstract class [Dimension]. *)
Inductive dimension_class : Type :=
  | HorizontalSpatialDimension
  | VerticalSpatialDimension
  | TemporalDimension
  | AdditionalDimension.

Module Dimension.

(** An instance: its class and the mapping [self.properties] it was
    constructed on. *)
Record t : Type := new { class_of : dimension_class; properties : props }.

(** The instance after its mapping has been mutated into [d]. *)
Definition with_properties (self : t) (d : props) : t :=
  {| class_of := class_of self; properties := d |}.

Definition dim_type (self : t) : result pyval :=
  get_required (dict_get (properties self) DIM_TYPE_PROP)
               "cube:dimension" DIM_TYPE_PROP.

Definition set_dim_type (self : t) (v : pyval) : t :=
  with_properties self (dict_setitem (properties self) DIM_TYPE_PROP v).

Definition description (self : t) : pyval :=
  dict_get (properties self) DIM_DESC_PROP.

Definition set_description (self : t) (v : pyval) : t :=
  if is_none v
  then with_properties self (dict_pop (properties self) DIM_DESC_PROP)
  else with_properties self (dict_setitem (properties self) DIM_DESC_PROP v).

Definition to_dict (self : t) : props := properties self.

Definition from_dict (d : props) : result t :=
  let dim_type := dict_get d DIM_TYPE_PROP in
  if is_none dim_type
  then Raise (RequiredPropertyMissing "cube_dimension" DIM_TYPE_PROP)
  else if eq_str dim_type "spatial" then
    let axis := dict_get d DIM_AXIS_PROP in
    if is_none axis
    then Raise (RequiredPropertyMissing "cube_dimension" DIM_AXIS_PROP)
    else if eq_str axis "z"
    then Ok (new VerticalSpatialDimension d)
    else Ok (new HorizontalSpatialDimension d)
  else if eq_str dim_type "temporal" then Ok (new TemporalDimension d)
  else Ok (new AdditionalDimension d).

(** The properties the class body declares, in order. *)
Definition class_dict : list (string * property t) :=
  [
    ("dim_type",
     Property dim_type (Some set_dim_type) false);
    ("description",
     Property (fun self => Ok (description self)) (Some set_description) true)
  ].

End Dimension.

Module HorizontalSpatialDimension.
Import Dimension.

Definition axis (self : t) : result pyval :=
  get_required (dict_get (properties self) DIM_AXIS_PROP)
               "cube:dimension" DIM_AXIS_PROP.

Definition set_axis (self : t) (v : pyval) : t :=
  with_properties self (dict_setitem (properties self) DIM_TYPE_PROP v).

Definition extent (self : t) : result pyval :=
  get_required (dict_get (properties self) DIM_EXTENT_PROP)
               "cube:dimension" DIM_EXTENT_PROP.

Definition set_extent (self : t) (v : pyval) : t :=
  with_properties self (dict_setitem (properties self) DIM_EXTENT_PROP v).

Definition values (self : t) : pyval :=
  dict_get (properties self) DIM_VALUES_PROP.

Definition set_values (self : t) (v : pyval) : t :=
  if is_none v
  then with_properties self (dict_pop (properties self) DIM_VALUES_PROP)
  else with_properties self (dict_setitem (properties self) DIM_VALUES_PROP v).

Definition step (self : t) : pyval :=
  dict_get (properties self) DIM_STEP_PROP.

Definition set_step (self : t) (v : pyval) : t :=
  with_properties self (dict_setitem (properties self) DIM_STEP_PROP v).

Definition clear_step (self : t) : t :=
  with_properties self (dict_pop (properties self) DIM_STEP_PROP).

Definition reference_system (self : t) : pyval :=
  dict_get (properties self) DIM_REF_SYS_PROP.

Definition set_reference_system (self : t) (v : pyval) : t :=
  if is_none v
  then with_properties self (dict_pop (properties self) DIM_REF_SYS_PROP)
  else with_properties self (dict_setitem (properties self) DIM_REF_SYS_PROP v).

(** The properties the class body declares, in order. *)
Definition class_dict : list (string * property t) :=
  [
    ("axis",
     Property axis (Some set_axis) false);
    ("extent",
     Property extent (Some set_extent) false);
    ("values",
     Property (fun self => Ok (values self)) (Some set_values) true);
    ("step",
     Property (fun self => Ok (step self)) (Some set_step) true);
    ("reference_system",
     Property (fun self => Ok (reference_system self))
              (Some set_reference_system) true)
  ].

End HorizontalSpatialDimension.

Module VerticalSpatialDimension.
Import Dimension.

Definition axis (self : t) : result pyval :=
  get_required (dict_get (properties self) DIM_AXIS_PROP)
               "cube:dimension" DIM_AXIS_PROP.

Definition set_axis (self : t) (v : pyval) : t :=
  with_properties self (dict_setitem (properties self) DIM_TYPE_PROP v).

Definition extent (self : t) : pyval :=
  dict_get (properties self) DIM_EXTENT_PROP.

Definition set_extent (self : t) (v : pyval) : t :=
  if is_none v
  then with_properties self (dict_pop (properties self) DIM_EXTENT_PROP)
  else with_properties self (dict_setitem (properties self) DIM_EXTENT_PROP v).

Definition values (self : t) : pyval :=
  dict_get (properties self) DIM_VALUES_PROP.

Definition set_values (self : t) (v : pyval) : t :=
  if is_none v
  then with_properties self (dict_pop (properties self) DIM_VALUES_PROP)
  else with_properties self (dict_setitem (properties self) DIM_VALUES_PROP v).

Definition step (self : t) : pyval :=
  dict_get (properties self) DIM_STEP_PROP.

Definition set_step (self : t) (v : pyval) : t :=
  with_properties self (dict_setitem (properties self) DIM_STEP_PROP v).

Definition clear_step (self : t) : t :=
  with_properties self (dict_pop (properties self) DIM_STEP_PROP).

Definition unit (self : t) : pyval :=
  dict_get (properties self) DIM_UNIT_PROP.

Definition set_unit (self : t) (v : pyval) : t :=
  if is_none v
  then with_properties self (dict_pop (properties self) DIM_UNIT_PROP)
  else with_properties self (dict_setitem (properties self) DIM_UNIT_PROP v).

Definition reference_system (self : t) : pyval :=
  dict_get (properties self) DIM_REF_SYS_PROP.

Definition set_reference_system (self : t) (v : pyval) : t :=
  if is_none v
  then with_properties self (dict_pop (properties self) DIM_REF_SYS_PROP)
  else with_properties self (dict_setitem (properties self) DIM_REF_SYS_PROP v).

(** The properties the class body declares, in order. *)
Definition class_dict : list (string * property t) :=
  [
    ("axis",
     Property axis (Some set_axis) false);
    ("extent",
     Property (fun self => Ok (extent self)) (Some set_extent) true);
    ("values",
     Property (fun self => Ok (values self)) (Some set_values) true);
    ("step",
     Property (fun self => Ok (step self)) (Some set_step) true);
    ("unit",
     Property (fun self => Ok (unit self)) (Some set_unit) true);
    ("reference_system",
     Property (fun self => Ok (reference_system self))
              (Some set_reference_system) true)
  ].

End VerticalSpatialDimension.

Module TemporalDimension.
Import Dimension.

Definition extent (self : t) : pyval :=
  dict_get (properties self) DIM_EXTENT_PROP.

Definition set_extent (self : t) (v : pyval) : t :=
  if is_none v
  then with_properties self (dict_pop (properties self) DIM_EXTENT_PROP)
  else with_properties self (dict_setitem (properties self) DIM_EXTENT_PROP v).

Definition values (self : t) : pyval :=
  dict_get (properties self) DIM_VALUES_PROP.

Definition set_values (self : t) (v : pyval) : t :=
  if is_none v
  then with_properties self (dict_pop (properties self) DIM_VALUES_PROP)
  else with_properties self (dict_setitem (properties self) DIM_VALUES_PROP v).

Definition step (self : t) : pyval :=
  dict_get (properties self) DIM_STEP_PROP.

Definition set_step (self : t) (v : pyval) : t :=
  with_properties self (dict_setitem (properties self) DIM_STEP_PROP v).

Definition clear_step (self : t) : t :=
  with_properties self (dict_pop (properties self) DIM_STEP_PROP).

(** The properties the class body declares, in order. *)
Definition class_dict : list (string * property t) :=
  [
    ("extent",
     Property (fun self => Ok (extent self)) (Some set_extent) true);
    ("values",
     Property (fun self => Ok (values self)) (Some set_values) true);
    ("step",
     Property (fun self => Ok (step self)) (Some set_step) true)
  ].

End TemporalDimension.

Module AdditionalDimension.
Import Dimension.

Definition extent (self : t) : pyval :=
  dict_get (properties self) DIM_EXTENT_PROP.

Definition set_extent (self : t) (v : pyval) : t :=
  if is_none v
  then with_properties self (dict_pop (properties self) DIM_EXTENT_PROP)
  else with_properties self (dict_setitem (properties self) DIM_EXTENT_PROP v).

Definition values (self : t) : pyval :=
  dict_get (properties self) DIM_VALUES_PROP.

Definition set_values (self : t) (v : pyval) : t :=
  if is_none v
  then with_properties self (dict_pop (properties self) DIM_VALUES_PROP)
  else with_properties self (dict_setitem (properties self) DIM_VALUES_PROP v).

Definition step (self : t) : pyval :=
  dict_get (properties self) DIM_STEP_PROP.

Definition set_step (self : t) (v : pyval) : t :=
  with_properties self (dict_setitem (properties self) DIM_STEP_PROP v).

Definition clear_step (self : t) : t :=
  with_properties self (dict_pop (properties self) DIM_STEP_PROP).

Definition unit (self : t) : pyval :=
  dict_get (properties self) DIM_UNIT_PROP.

Definition set_unit (self : t) (v : pyval) : t :=
  if is_none v
  then with_properties self (dict_pop (properties self) DIM_UNIT_PROP)
  else with_properties self (dict_setitem (properties self) DIM_UNIT_PROP v).

Definition reference_system (self : t) : pyval :=
  dict_get (properties self) DIM_REF_SYS_PROP.

Definition set_reference_system (self : t) (v : pyval) : t :=
  if is_none v
  then with_properties self (dict_pop (properties self) DIM_REF_SYS_PROP)
  else with_properties self (dict_setitem (properties self) DIM_REF_SYS_PROP v).

(** The properties the class body declares, in order. *)
Definition class_dict : list (string * property t) :=
  [
    ("extent",
     Property (fun self => Ok (extent self)) (Some set_extent) true);
    ("values",
     Property (fun self => Ok (values self)) (Some set_values) true);
    ("step",
     Property (fun self => Ok (step self)) (Some set_step) true);
    ("unit",
     Property (fun self => Ok (unit self)) (Some set_unit) true);
    ("reference_system",
     Property (fun self => Ok (reference_system self))
              (Some set_reference_system) true)
  ].

End AdditionalDimension.

(** *** Attribute access on a dimension view *)

Definition class_dict_of (c : dimension_class)
  : list (string * property Dimension.t) :=
  match c with
  | HorizontalSpatialDimension => HorizontalSpatialDimension.class_dict
  | VerticalSpatialDimension => VerticalSpatialDimension.class_dict
  | TemporalDimension => TemporalDimension.class_dict
  | AdditionalDimension => AdditionalDimension.class_dict
  end.

(** The property [name] resolves to on an instance of class [c]: the
    subclass first, then [Dimension]. *)
Definition lookup_property (c : dimension_class) (name : string)
  : option (property Dimension.t) :=
  assoc name (class_dict_of c ++ Dimension.class_dict).

(** [self.name], when [name] is a property of the class of [self]. *)
Definition getattr (self : Dimension.t) (name : string)
  : option (result pyval) :=
  p ← lookup_property (Dimension.class_of self) name;
  Some (fget p self).

(** [self.name = v], when [name] is a property with a setter. *)
Definition setattr (self : Dimension.t) (name : string) (v : pyval)
  : option Dimension.t :=
  p ← lookup_property (Dimension.class_of self) name;
  f ← fset p;
  Some (f self v).

(** [self.clear_step()]: each of the four classes defines the method. *)
Definition clear_step (self : Dimension.t) : Dimension.t :=
  match Dimension.class_of self with
  | HorizontalSpatialDimension => HorizontalSpatialDimension.clear_step self
  | VerticalSpatialDimension => VerticalSpatialDimension.clear_step self
  | TemporalDimension => TemporalDimension.clear_step self
  | AdditionalDimension => AdditionalDimension.clear_step self
  end.

(** Whether [name] is a property of class [c] whose getter is annotated
    [Optional[...]]. *)
Definition optional_field (c : dimension_class) (name : string) : bool :=
  from_option annotated_optional false (lookup_property c name).

(** ** Variables *)

(** The class [Variable]; the name is a reserved word here. *)
Module CubeVariable.

Record t : Type := new { properties : props }.

Definition var_type (self : t) : result pyval :=
  get_required (dict_get (properties self) VAR_TYPE_PROP)
               "cube:variables" VAR_TYPE_PROP.

Definition set_var_type (self : t) (v : pyval) : t :=
  new (dict_setitem (properties self) VAR_TYPE_PROP v).

Definition description (self : t) : pyval :=
  dict_get (properties self) VAR_DESC_PROP.

Definition set_description (self : t) (v : pyval) : t :=
  if is_none v
  then new (dict_pop (properties self) VAR_DESC_PROP)
  else new (dict_setitem (properties self) VAR_DESC_PROP v).

Definition to_dict (self : t) : props := properties self.

(** The closing parenthesis of [self.properties.get] comes after the
    third argument: [get] receives three arguments and [get_required]
    one. *)
Definition dimensions (self : t) : result pyval :=
  option <~ dict_get_call (properties self)
              [PStr VAR_DIMS_PROP; PStr "cube:dimensions"; PStr VAR_DIMS_PROP] ;;
  get_required_1 option.

Definition set_dimensions (self : t) (v : pyval) : t :=
  new (dict_setitem (properties self) VAR_DIMS_PROP v).

(** Reads [DIM_UNIT_PROP]; no setter. *)
Definition values (self : t) : pyval :=
  dict_get (properties self) DIM_UNIT_PROP.

Definition extent (self : t) : pyval :=
  dict_get (properties self) VAR_EXTENT_PROP.

Definition set_extent (self : t) (v : pyval) : t :=
  if is_none v
  then new (dict_pop (properties self) VAR_EXTENT_PROP)
  else new (dict_setitem (properties self) VAR_EXTENT_PROP v).

Definition step (self : t) : pyval :=
  dict_get (properties self) VAR_STEP_PROP.

Definition set_step (self : t) (v : pyval) : t :=
  new (dict_setitem (properties self) VAR_STEP_PROP v).

Definition unit (self : t) : pyval :=
  dict_get (properties self) VAR_UNIT_PROP.

Definition set_unit (self : t) (v : pyval) : t :=
  if is_none v
  then new (dict_pop (properties self) VAR_UNIT_PROP)
  else new (dict_setitem (properties self) VAR_UNIT_PROP v).

Definition shape (self : t) : pyval :=
  dict_get (properties self) VAR_SHAPE_PROP.

Definition set_shape (self : t) (v : pyval) : t :=
  if is_none v
  then new (dict_pop (properties self) VAR_SHAPE_PROP)
  else new (dict_setitem (properties self) VAR_SHAPE_PROP v).

Definition chunks (self : t) : pyval :=
  dict_get (properties self) VAR_CHUNKS_PROP.

Definition set_chunks (self : t) (v : pyval) : t :=
  if is_none v
  then new (dict_pop (properties self) VAR_CHUNKS_PROP)
  else new (dict_setitem (properties self) VAR_CHUNKS_PROP v).

Definition attrs (self : t) : pyval :=
  dict_get (properties self) VAR_ATTRS_PROP.

Definition set_attrs (self : t) (v : pyval) : t :=
  if is_none v
  then new (dict_pop (properties self) VAR_ATTRS_PROP)
  else new (dict_setitem (properties self) VAR_ATTRS_PROP v).

Definition from_dict (d : props) : t := new d.

(** The properties the class body declares, in order. *)
Definition class_dict : list (string * property t) :=
  [
    ("var_type",
     Property var_type (Some set_var_type) false);
    ("description",
     Property (fun self => Ok (description self)) (Some set_description) true);
    ("dimensions",
     Property dimensions (Some set_dimensions) false);
    ("values",
     Property (fun self => Ok (values self)) None false);
    ("extent",
     Property (fun self => Ok (extent self)) (Some set_extent) true);
    ("step",
     Property (fun self => Ok (step self)) (Some set_step) true);
    ("unit",
     Property (fun self => Ok (unit self)) (Some set_unit) true);
    ("shape",
     Property (fun self => Ok (shape self)) (Some set_shape) true);
    ("chunks",
     Property (fun self => Ok (chunks self)) (Some set_chunks) true);
    ("attrs",
     Property (fun self => Ok (attrs self)) (Some set_attrs) true)
  ].

(** [self.name] and [self.name = v] on a variable view. *)
Definition getattr (self : t) (name : string) : option (result pyval) :=
  p ← assoc name class_dict; Some (fget p self).

Definition setattr (self : t) (name : string) (v : pyval) : option t :=
  p ← assoc name class_dict; f ← fset p; Some (f self v).

End CubeVariable.

(** ** Host objects *)

(** Modelled from the spec: the classes [pystac.Collection], [pystac.Item]
    and [pystac.Asset] belong to the document model, which "supplies host
    objects with a properties/extra_fields mapping, an id, an owner
    back-reference (for assets), and a stac_extensions list of schema-URI
    strings".  Only the attributes this module reads are kept. *)
Record Collection : Type := {
  collection_id : string;
  extra_fields : props;
  collection_stac_extensions : list string
}.

Record Item : Type := {
  item_id : string;
  item_properties : props;
  item_stac_extensions : list string
}.

(** What [asset.owner] refers to when it is not [None]. *)
Inductive owner_ref : Type :=
  | OwnerItem (item : Item)
  | OwnerCollection (collection : Collection).

Record Asset : Type := {
  href : string;
  asset_properties : props;
  owner : option owner_ref
}.

(** The argument of [ext] at run time: an instance of one of the three
    host classes, or an object of some other type, of which only the type
    name matters. *)
Inductive pyobj : Type :=
  | ObjCollection (c : Collection)
  | ObjItem (i : Item)
  | ObjAsset (a : Asset)
  | ObjOther (type_name : string).

(** ** The extension facade *)

Module DatacubeExtension.

(** An instance of one of the three concrete facades with the attributes
    its constructor assigns.  [additional_read_properties] is a class
    attribute of [PropertiesExtension] that defaults to [None]. *)
Inductive t : Type :=
  | CollectionDatacubeExtension (collection : Collection) (properties : props)
  | ItemDatacubeExtension (item : Item) (properties : props)
  | AssetDatacubeExtension (asset_href : string) (properties : props)
      (additional_read_properties : option (list props)).

Definition properties (self : t) : props :=
  match self with
  | CollectionDatacubeExtension _ p => p
  | ItemDatacubeExtension _ p => p
  | AssetDatacubeExtension _ p _ => p
  end.

Definition additional_read_properties (self : t) : option (list props) :=
  match self with
  | AssetDatacubeExtension _ _ a => a
  | _ => None
  end.

Definition get_schema_uri : string := SCHEMA_URI.

(** [CollectionDatacubeExtension.__init__] *)
Definition CollectionDatacubeExtension_init (collection : Collection) : t :=
  CollectionDatacubeExtension collection (extra_fields collection).

(** [ItemDatacubeExtension.__init__] *)
Definition ItemDatacubeExtension_init (item : Item) : t :=
  ItemDatacubeExtension item (item_properties item).

(** [AssetDatacubeExtension.__init__]; [asset.owner and
    isinstance(asset.owner, pystac.Item)] holds for an owner that is an
    item, an object without [__bool__] or [__len__] being true. *)
Definition AssetDatacubeExtension_init (asset : Asset) : t :=
  AssetDatacubeExtension (href asset) (asset_properties asset)
    match owner asset with
    | Some (OwnerItem item) => Some [item_properties item]
    | Some (OwnerCollection _) => None
    | None => None
    end.

Definition ext (obj : pyobj) : result t :=
  match obj with
  | ObjCollection c => Ok (CollectionDatacubeExtension_init c)
  | ObjItem i => Ok (ItemDatacubeExtension_init i)
  | ObjAsset a => Ok (AssetDatacubeExtension_init a)
  | ObjOther type_name =>
      Raise (ExtensionTypeError
               ("Datacube extension does not apply to type <class '"
                +:+ type_name +:+ "'>"))
  end.

(** Modelled from the spec: [PropertiesExtension._get_property] is
    inherited from [pystac.extensions.base].  The facade reads a key in
    its own mapping and, when it finds nothing there, in the mappings
    chained as a "read-only fallback lookup", in order. *)
Fixpoint first_non_none (k : string) (l : list props) : pyval :=
  match l with
  | [] => PNone
  | d :: l' =>
      if is_none (dict_get d k) then first_non_none k l' else dict_get d k
  end.

Definition _get_property (self : t) (prop_name : string) : pyval :=
  if is_none (dict_get (properties self) prop_name)
  then first_non_none prop_name
         (default [] (additional_read_properties self))
  else dict_get (properties self) prop_name.

End DatacubeExtension.

(** ** Vocabulary of the statements *)

(** A key that [d.get] reads as [None]: absent, or present and null. *)
Definition absent_or_null (d : props) (k : string) : Prop :=
  d !! k = None \/ d !! k = Some PNone.

(** The optional fields other than [step]. *)
Definition delete_on_none_fields : list string :=
  ["description"; "extent"; "values"; "unit"; "reference_system"].

(** The optional fields of a variable. *)
Definition variable_optional_fields : list string :=
  ["description"; "extent"; "step"; "unit"; "shape"; "chunks"; "attrs"].

(** The three host kinds [ext] accepts. *)
Inductive host_kind : Type := CollectionKind | ItemKind | AssetKind.

Definition kind_of (obj : pyobj) : option host_kind :=
  match obj with
  | ObjCollection _ => Some CollectionKind
  | ObjItem _ => Some ItemKind
  | ObjAsset _ => Some AssetKind
  | ObjOther _ => None
  end.

Definition facade_kind (f : DatacubeExtension.t) : host_kind :=
  match f with
  | DatacubeExtension.CollectionDatacubeExtension _ _ => CollectionKind
  | DatacubeExtension.ItemDatacubeExtension _ _ => ItemKind
  | DatacubeExtension.AssetDatacubeExtension _ _ _ => AssetKind
  end.

(** The mapping of a host object that its facade reads and writes. *)
Definition host_properties (obj : pyobj) : option props :=
  match obj with
  | ObjCollection c => Some (extra_fields c)
  | ObjItem i => Some (item_properties i)
  | ObjAsset a => Some (asset_properties a)
  | ObjOther _ => None
  end.

(** ** Example documents *)

(** The mapping [{"type": None}]. *)
Definition null_type_dict : props := {[ "type" := PNone ]}.

(** Four mappings, one for each row of the table. *)
Definition vertical_dict : props :=
  <[ "axis" := PStr "z" ]> {[ "type" := PStr "spatial" ]}.
Definition horizontal_dict : props :=
  <[ "axis" := PStr "x" ]> {[ "type" := PStr "spatial" ]}.
Definition temporal_dict : props := {[ "type" := PStr "temporal" ]}.
Definition additional_dict : props := {[ "type" := PStr "spectral" ]}.

(** The mapping [{"type": "spatial"}], without an axis. *)
Definition spatial_no_axis_dict : props := {[ "type" := PStr "spatial" ]}.

(** A vertical dimension that declares a unit. *)
Definition vertical_unit_dict : props := <[ "unit" := PStr "hPa" ]> vertical_dict.

(** The variable [{"type": "data", "dimensions": ["time", "y", "x"],
    "unit": "degrees C", "extent": [0, 100]}]. *)
Definition tmax_dict : props :=
  <[ "type" := PStr "data" ]>
  (<[ "dimensions" := PList [PStr "time"; PStr "y"; PStr "x"] ]>
   (<[ "unit" := PStr "degrees C" ]>
    {[ "extent" := PList [PInt 0; PInt 100] ]})).

(** The mapping [{"step": 1}]. *)
Definition step_dict : props := {[ "step" := PInt 1 ]}.

(** An item, an asset it owns and the same asset without an owner. *)
Definition example_item : Item :=
  {| item_id := "item";
     item_properties := {[ "cube:dimensions" := PDict ∅ ]};
     item_stac_extensions := [SCHEMA_URI] |}.

Definition owned_asset : Asset :=
  {| href := "data.nc"; asset_properties := ∅;
     owner := Some (OwnerItem example_item) |}.

Definition ownerless_asset : Asset :=
  {| href := "data.nc"; asset_properties := ∅; owner := None |}.

(** ** Proof automation *)

(** Decides the string comparisons of a lookup in a class dict. *)
Ltac resolve_attr :=
  cbv [getattr setattr lookup_property class_dict_of app assoc
       Dimension.class_of Dimension.class_dict
       HorizontalSpatialDimension.class_dict
       VerticalSpatialDimension.class_dict
       TemporalDimension.class_dict AdditionalDimension.class_dict
       optional_field from_option annotated_optional fget fset
       mbind option_bind];
  repeat (case_decide; try congruence).

Create HintDb dim_setters.
#[local] Hint Unfold
  Dimension.set_description
  HorizontalSpatialDimension.set_values
  HorizontalSpatialDimension.set_reference_system
  VerticalSpatialDimension.set_extent VerticalSpatialDimension.set_values
  VerticalSpatialDimension.set_unit
  VerticalSpatialDimension.set_reference_system
  TemporalDimension.set_extent TemporalDimension.set_values
  AdditionalDimension.set_extent AdditionalDimension.set_values
  AdditionalDimension.set_unit AdditionalDimension.set_reference_system
  HorizontalSpatialDimension.set_step VerticalSpatialDimension.set_step
  TemporalDimension.set_step AdditionalDimension.set_step
  dict_pop dict_setitem
  : dim_setters.

Ltac resolve_var_attr :=
  cbv [CubeVariable.getattr CubeVariable.setattr CubeVariable.class_dict
       assoc fget fset annotated_optional mbind option_bind fmap option_fmap
       option_map];
  repeat (case_decide; try congruence).

(** Every getter and setter of the dimension classes. *)
Create HintDb dim_accessors.
#[local] Hint Unfold
  Dimension.dim_type Dimension.set_dim_type
  Dimension.description Dimension.set_description
  HorizontalSpatialDimension.axis HorizontalSpatialDimension.set_axis
  HorizontalSpatialDimension.extent HorizontalSpatialDimension.set_extent
  HorizontalSpatialDimension.values HorizontalSpatialDimension.set_values
  HorizontalSpatialDimension.step HorizontalSpatialDimension.set_step
  HorizontalSpatialDimension.reference_system
  HorizontalSpatialDimension.set_reference_system
  VerticalSpatialDimension.axis VerticalSpatialDimension.set_axis
  VerticalSpatialDimension.extent VerticalSpatialDimension.set_extent
  VerticalSpatialDimension.values VerticalSpatialDimension.set_values
  VerticalSpatialDimension.step VerticalSpatialDimension.set_step
  VerticalSpatialDimension.unit VerticalSpatialDimension.set_unit
  VerticalSpatialDimension.reference_system
  VerticalSpatialDimension.set_reference_system
  TemporalDimension.extent TemporalDimension.set_extent
  TemporalDimension.values TemporalDimension.set_values
  TemporalDimension.step TemporalDimension.set_step
  AdditionalDimension.extent AdditionalDimension.set_extent
  AdditionalDimension.values AdditionalDimension.set_values
  AdditionalDimension.step AdditionalDimension.set_step
  AdditionalDimension.unit AdditionalDimension.set_unit
  AdditionalDimension.reference_system
  AdditionalDimension.set_reference_system
  : dim_accessors.

(** Every getter and setter of the variable class. *)
Create HintDb var_accessors.
#[local] Hint Unfold
  CubeVariable.var_type CubeVariable.set_var_type
  CubeVariable.description CubeVariable.set_description
  CubeVariable.dimensions CubeVariable.set_dimensions
  CubeVariable.values
  CubeVariable.extent CubeVariable.set_extent
  CubeVariable.step CubeVariable.set_step
  CubeVariable.unit CubeVariable.set_unit
  CubeVariable.shape CubeVariable.set_shape
  CubeVariable.chunks CubeVariable.set_chunks
  CubeVariable.attrs CubeVariable.set_attrs
  : var_accessors.

(** Case analysis on the property an assignment [H : setattr self name v =
    Some self'] resolves to: one goal for each property with a setter, with
    [name] replaced by the attribute name and [self'] by the setter's result. *)
Ltac each_setter H :=
  cbv [setattr lookup_property class_dict_of app assoc
       Dimension.class_of Dimension.class_dict
       HorizontalSpatialDimension.class_dict
       VerticalSpatialDimension.class_dict
       TemporalDimension.class_dict AdditionalDimension.class_dict
       fset mbind option_bind] in H;
  repeat (case_decide; [subst | ]); try discriminate H;
  injection H as <-.

Ltac each_var_setter H :=
  cbv [CubeVariable.setattr CubeVariable.class_dict assoc
       fset mbind option_bind] in H;
  repeat (case_decide; [subst | ]); try discriminate H;
  injection H as <-.

(** * Properties *)

(** ** Built-ins *)

Lemma is_none_true (v : pyval) : is_none v = true <-> v = PNone.
Proof. destruct v; simpl; split; congruence. Qed.

Lemma is_none_false (v : pyval) : is_none v = false <-> v <> PNone.
Proof. destruct v; simpl; split; congruence. Qed.

Lemma eq_str_true (v : pyval) (s : string) : eq_str v s = true <-> v = PStr s.
Proof.
  destruct v; simpl; try (split; congruence).
  rewrite bool_decide_eq_true. split; congruence.
Qed.

Lemma eq_str_false (v : pyval) (s : string) :
  eq_str v s = false <-> v <> PStr s.
Proof.
  rewrite <- eq_str_true. destruct (eq_str v s); split; congruence.
Qed.

Lemma dict_get_lookup (d : props) (k : string) (v : pyval) :
  d !! k = Some v -> dict_get d k = v.
Proof. unfold dict_get. now intros ->. Qed.

Lemma dict_get_absent (d : props) (k : string) :
  d !! k = None -> dict_get d k = PNone.
Proof. unfold dict_get. now intros ->. Qed.

Lemma dict_get_none_iff (d : props) (k : string) :
  dict_get d k = PNone <-> absent_or_null d k.
Proof.
  unfold dict_get, absent_or_null. destruct (d !! k) as [v|]; simpl.
  - split; [intros ->; now right | intros [?|?]; congruence].
  - split; [now left | reflexivity].
Qed.

Lemma dict_contains_true (d : props) (k : string) :
  dict_contains d k = true <-> is_Some (d !! k).
Proof. unfold dict_contains. apply bool_decide_eq_true. Qed.

Lemma dict_contains_false (d : props) (k : string) :
  dict_contains d k = false <-> d !! k = None.
Proof.
  unfold dict_contains. rewrite bool_decide_eq_false.
  rewrite <- eq_None_not_Some. reflexivity.
Qed.

Lemma get_required_ok (v : pyval) (obj prop : string) :
  v <> PNone -> get_required v obj prop = Ok v.
Proof. intros H. unfold get_required. now apply is_none_false in H as ->. Qed.

Lemma get_required_none (obj prop : string) :
  get_required PNone obj prop = Raise (RequiredPropertyMissing obj prop).
Proof. reflexivity. Qed.

(** ** The classifier *)

Section Classifier.
Variable d : props.

Let ty := dict_get d DIM_TYPE_PROP.
Let ax := dict_get d DIM_AXIS_PROP.

Lemma from_dict_no_type :
  ty = PNone ->
  Dimension.from_dict d
  = Raise (RequiredPropertyMissing "cube_dimension" "type").
Proof. unfold Dimension.from_dict. fold ty. now intros ->. Qed.

Lemma from_dict_no_axis :
  ty = PStr "spatial" -> ax = PNone ->
  Dimension.from_dict d
  = Raise (RequiredPropertyMissing "cube_dimension" "axis").
Proof. unfold Dimension.from_dict. fold ty ax. now intros -> ->. Qed.

Lemma from_dict_vertical :
  ty = PStr "spatial" -> ax = PStr "z" ->
  Dimension.from_dict d = Ok (Dimension.new VerticalSpatialDimension d).
Proof. unfold Dimension.from_dict. fold ty ax. now intros -> ->. Qed.

Lemma from_dict_horizontal :
  ty = PStr "spatial" -> ax <> PNone -> ax <> PStr "z" ->
  Dimension.from_dict d = Ok (Dimension.new HorizontalSpatialDimension d).
Proof.
  unfold Dimension.from_dict. fold ty ax. intros -> Hnone Hz.
  apply is_none_false in Hnone. apply (eq_str_false _ "z") in Hz.
  simpl. now rewrite Hnone, Hz.
Qed.

Lemma from_dict_temporal :
  ty = PStr "temporal" ->
  Dimension.from_dict d = Ok (Dimension.new TemporalDimension d).
Proof. unfold Dimension.from_dict. fold ty. now intros ->. Qed.

Lemma from_dict_additional :
  ty <> PNone -> ty <> PStr "spatial" -> ty <> PStr "temporal" ->
  Dimension.from_dict d = Ok (Dimension.new AdditionalDimension d).
Proof.
  unfold Dimension.from_dict. fold ty. intros Hnone Hs Ht.
  apply is_none_false in Hnone. apply (eq_str_false _ "spatial") in Hs.
  apply (eq_str_false _ "temporal") in Ht. now rewrite Hnone, Hs, Ht.
Qed.

(** An error of [from_dict] is one of the two required-field checks. *)
Lemma from_dict_raise_inv (e : pyerr) :
  Dimension.from_dict d = Raise e ->
  (ty = PNone /\ e = RequiredPropertyMissing "cube_dimension" "type")
  \/ (ty = PStr "spatial" /\ ax = PNone
      /\ e = RequiredPropertyMissing "cube_dimension" "axis").
Proof.
  unfold Dimension.from_dict, Raise, Ok. fold ty ax.
  destruct (is_none ty) eqn:Hty.
  { intros [= <-]. left. split; [now apply is_none_true | reflexivity]. }
  destruct (eq_str ty "spatial") eqn:Hsp.
  - destruct (is_none ax) eqn:Hax.
    + intros [= <-]. right. rewrite <- eq_str_true, <- is_none_true. auto.
    + destruct (eq_str ax "z"); discriminate.
  - destruct (eq_str ty "temporal"); discriminate.
Qed.

(** A view [from_dict] returns holds the mapping it was given. *)
Lemma from_dict_properties (self : Dimension.t) :
  Dimension.from_dict d = Ok self -> Dimension.properties self = d.
Proof.
  unfold Dimension.from_dict, Raise, Ok. fold ty ax.
  repeat match goal with
         | |- context [if ?b then _ else _] => destruct b
         end; intros [= <-]; reflexivity || discriminate.
Qed.

End Classifier.

(** ** Claims *)

(** C1, counterexample: the mapping [{"type": None}] contains a [type] key
    whose value is neither ["spatial"] nor ["temporal"], and [from_dict]
    raises instead of returning an [AdditionalDimension]. *)
Lemma from_dict_null_type_not_additional :
  is_Some (null_type_dict !! "type")
  /\ dict_get null_type_dict "type" <> PStr "spatial"
  /\ dict_get null_type_dict "type" <> PStr "temporal"
  /\ Dimension.from_dict null_type_dict
     = Raise (RequiredPropertyMissing "cube_dimension" "type")
  /\ Dimension.from_dict null_type_dict
     <> Ok (Dimension.new AdditionalDimension null_type_dict).
Proof.
  assert (Hget : dict_get null_type_dict "type" = PNone)
    by (apply dict_get_lookup, lookup_singleton_eq).
  assert (Hraise : Dimension.from_dict null_type_dict
                   = Raise (RequiredPropertyMissing "cube_dimension" "type"))
    by (apply from_dict_no_type, Hget).
  split; [|split; [|split; [|split]]].
  - exists PNone. apply lookup_singleton_eq.
  - rewrite Hget. discriminate.
  - rewrite Hget. discriminate.
  - exact Hraise.
  - rewrite Hraise. discriminate.
Qed.

(** C1, as amended: for every property mapping whose [type] key holds a
    value other than null (and, when that value is ["spatial"], whose [axis]
    key holds a value other than null), [Dimension.from_dict] returns the
    variant of the discriminant table over the same mapping: ["spatial"]
    with axis ["z"] is vertical, ["spatial"] with any other axis is
    horizontal, ["temporal"] is temporal, any other type is additional. *)
Theorem from_dict_discriminant_table (d : props) (ty : pyval) :
  d !! "type" = Some ty -> ty <> PNone ->
  (ty = PStr "spatial" -> d !! "axis" = Some (PStr "z") ->
   Dimension.from_dict d = Ok (Dimension.new VerticalSpatialDimension d))
  /\ (ty = PStr "spatial" ->
      forall ax, d !! "axis" = Some ax -> ax <> PNone -> ax <> PStr "z" ->
      Dimension.from_dict d = Ok (Dimension.new HorizontalSpatialDimension d))
  /\ (ty = PStr "temporal" ->
      Dimension.from_dict d = Ok (Dimension.new TemporalDimension d))
  /\ (ty <> PStr "spatial" -> ty <> PStr "temporal" ->
      Dimension.from_dict d = Ok (Dimension.new AdditionalDimension d)).
Proof.
  intros Hty Hnone. apply dict_get_lookup in Hty. subst ty.
  split; [|split; [|split]].
  - intros Hsp Hax. apply from_dict_vertical; [exact Hsp|].
    now apply dict_get_lookup.
  - intros Hsp ax Hax Hn Hz. apply dict_get_lookup in Hax. subst ax.
    now apply from_dict_horizontal.
  - apply from_dict_temporal.
  - now apply from_dict_additional.
Qed.

Lemma from_dict_discriminant_table_witness :
  Dimension.from_dict vertical_dict
  = Ok (Dimension.new VerticalSpatialDimension vertical_dict)
  /\ Dimension.from_dict horizontal_dict
     = Ok (Dimension.new HorizontalSpatialDimension horizontal_dict)
  /\ Dimension.from_dict temporal_dict
     = Ok (Dimension.new TemporalDimension temporal_dict)
  /\ Dimension.from_dict additional_dict
     = Ok (Dimension.new AdditionalDimension additional_dict).
Proof.
  split; [|split; [|split]].
  - apply (from_dict_discriminant_table vertical_dict (PStr "spatial"));
      solve [reflexivity | discriminate].
  - apply (from_dict_discriminant_table horizontal_dict (PStr "spatial")
             eq_refl) with (ax := PStr "x");
      solve [reflexivity | discriminate].
  - apply (from_dict_discriminant_table temporal_dict (PStr "temporal"));
      solve [reflexivity | discriminate].
  - apply (from_dict_discriminant_table additional_dict (PStr "spectral"));
      solve [reflexivity | discriminate].
Defined.

(** C2, counterexample: on [{"type": None}] the [type] key is not absent
    and the type is not ["spatial"], yet [from_dict] fails; and the error
    context is the string ["cube_dimension"]. *)
Lemma from_dict_null_type_fails :
  null_type_dict !! "type" <> None
  /\ dict_get null_type_dict "type" <> PStr "spatial"
  /\ Dimension.from_dict null_type_dict
     = Raise (RequiredPropertyMissing "cube_dimension" "type")
  /\ Dimension.from_dict null_type_dict
     <> Raise (RequiredPropertyMissing "cube:dimension" "type").
Proof.
  assert (Hget : dict_get null_type_dict "type" = PNone)
    by (apply dict_get_lookup, lookup_singleton_eq).
  assert (Hraise : Dimension.from_dict null_type_dict
                   = Raise (RequiredPropertyMissing "cube_dimension" "type"))
    by (apply from_dict_no_type, Hget).
  split; [|split; [|split]].
  - unfold null_type_dict. rewrite lookup_singleton_eq. discriminate.
  - rewrite Hget. discriminate.
  - exact Hraise.
  - rewrite Hraise. discriminate.
Qed.

(** C2, as amended: for every property mapping in which [type] is absent
    or null, [Dimension.from_dict] fails with a missing-required-property
    error whose field name is [type]; for every mapping with type
    ["spatial"] in which [axis] is absent or null, it fails with a
    missing-required-property error whose field name is [axis]; and it
    fails in no other case. *)
Theorem from_dict_failure_modes (d : props) :
  (absent_or_null d "type" ->
   exists ctx, Dimension.from_dict d
               = Raise (RequiredPropertyMissing ctx "type"))
  /\ (d !! "type" = Some (PStr "spatial") -> absent_or_null d "axis" ->
      exists ctx, Dimension.from_dict d
                  = Raise (RequiredPropertyMissing ctx "axis"))
  /\ (forall e, Dimension.from_dict d = Raise e ->
      (absent_or_null d "type"
       /\ exists ctx, e = RequiredPropertyMissing ctx "type")
      \/ (d !! "type" = Some (PStr "spatial") /\ absent_or_null d "axis"
          /\ exists ctx, e = RequiredPropertyMissing ctx "axis")).
Proof.
  split; [|split].
  - intros H. apply dict_get_none_iff in H. eexists.
    now apply from_dict_no_type.
  - intros Hty Hax. apply dict_get_lookup in Hty.
    apply dict_get_none_iff in Hax. eexists. now apply from_dict_no_axis.
  - intros e He.
    destruct (from_dict_raise_inv d e He) as [[Hty ->]|(Hty & Hax & ->)].
    + left. split; [now apply dict_get_none_iff | eauto].
    + right. split; [|split; [now apply dict_get_none_iff | eauto]].
      unfold dict_get, DIM_TYPE_PROP in Hty.
      destruct (d !! "type") as [v|]; simpl in Hty; congruence.
Qed.

Lemma from_dict_failure_modes_witness :
  (exists ctx, Dimension.from_dict ∅
               = Raise (RequiredPropertyMissing ctx "type"))
  /\ (exists ctx, Dimension.from_dict spatial_no_axis_dict
                  = Raise (RequiredPropertyMissing ctx "axis"))
  /\ ((absent_or_null spatial_no_axis_dict "type"
       /\ exists ctx, RequiredPropertyMissing "cube_dimension" "axis"
                      = RequiredPropertyMissing ctx "type")
      \/ (spatial_no_axis_dict !! "type" = Some (PStr "spatial")
          /\ absent_or_null spatial_no_axis_dict "axis"
          /\ exists ctx, RequiredPropertyMissing "cube_dimension" "axis"
                         = RequiredPropertyMissing ctx "axis")).
Proof.
  split; [|split].
  - apply (from_dict_failure_modes ∅). left. reflexivity.
  - apply (from_dict_failure_modes spatial_no_axis_dict);
      [reflexivity | left; reflexivity].
  - apply (from_dict_failure_modes spatial_no_axis_dict). reflexivity.
Defined.

(** ** Attribute resolution on dimension views *)

Lemma getattr_step (self : Dimension.t) :
  getattr self "step"
  = Some (Ok (dict_get (Dimension.properties self) "step")).
Proof. destruct self as [[] p]; resolve_attr; reflexivity. Qed.

Lemma setattr_step (self : Dimension.t) (v : pyval) :
  setattr self "step" v
  = Some (Dimension.with_properties self
            (<["step" := v]> (Dimension.properties self))).
Proof. destruct self as [[] p]; resolve_attr; reflexivity. Qed.

Lemma clear_step_properties (self : Dimension.t) :
  clear_step self
  = Dimension.with_properties self (delete "step" (Dimension.properties self)).
Proof. destruct self as [[] p]; reflexivity. Qed.

(** ** The [step] field of a dimension *)

(** C3: on a view of any of the four dimension classes the [step] field
    has three states.  While the key is absent, reading [step] gives the
    absent marker, [None].  Assigning [None] leaves the key in the mapping
    with a null value, and reading gives that null.  [clear_step] then
    removes the key, and reading gives the absent marker again.  Assigning
    any other value stores it and reading returns it.  The first two states
    read the same and differ by the key being in the mapping. *)
Theorem step_tri_state (self : Dimension.t) :
  let p := Dimension.properties self in
  let self_null := Dimension.with_properties self (<["step" := PNone]> p) in
  let self_clear := clear_step self_null in
  (p !! "step" = None -> getattr self "step" = Some (Ok PNone))
  /\ setattr self "step" PNone = Some self_null
  /\ Dimension.properties self_null !! "step" = Some PNone
  /\ dict_contains (Dimension.properties self_null) "step" = true
  /\ getattr self_null "step" = Some (Ok PNone)
  /\ Dimension.properties self_clear = delete "step" p
  /\ dict_contains (Dimension.properties self_clear) "step" = false
  /\ getattr self_clear "step" = Some (Ok PNone)
  /\ (forall v, v <> PNone ->
      exists self_v,
        setattr self "step" v = Some self_v
        /\ Dimension.properties self_v !! "step" = Some v
        /\ dict_contains (Dimension.properties self_v) "step" = true
        /\ getattr self_v "step" = Some (Ok v)).
Proof.
  intros p self_null self_clear.
  assert (Hclear : Dimension.properties self_clear = delete "step" p).
  { unfold self_clear. rewrite clear_step_properties. simpl.
    apply delete_insert_eq. }
  split; [|split; [|split; [|split; [|split; [|split; [|split; [|split]]]]]]].
  - intros Habs. rewrite getattr_step. fold p.
    now rewrite (dict_get_absent _ _ Habs).
  - apply setattr_step.
  - simpl. apply lookup_insert_eq.
  - apply dict_contains_true. simpl. rewrite lookup_insert_eq. eauto.
  - rewrite getattr_step. simpl.
    now rewrite (dict_get_lookup _ _ PNone (lookup_insert_eq _ _ _)).
  - exact Hclear.
  - apply dict_contains_false. rewrite Hclear. apply lookup_delete_eq.
  - rewrite getattr_step, Hclear.
    now rewrite (dict_get_absent _ _ (lookup_delete_eq _ _)).
  - intros v _. eexists. split; [apply setattr_step|]. simpl.
    split; [apply lookup_insert_eq|]. split.
    + apply dict_contains_true. rewrite lookup_insert_eq. eauto.
    + rewrite getattr_step. simpl.
      now rewrite (dict_get_lookup _ _ v (lookup_insert_eq _ _ _)).
Qed.

Lemma step_tri_state_witness :
  getattr (Dimension.new VerticalSpatialDimension vertical_dict) "step"
  = Some (Ok PNone)
  /\ exists self_v,
       setattr (Dimension.new VerticalSpatialDimension vertical_dict)
               "step" (PInt 100) = Some self_v
       /\ Dimension.properties self_v !! "step" = Some (PInt 100)
       /\ dict_contains (Dimension.properties self_v) "step" = true
       /\ getattr self_v "step" = Some (Ok (PInt 100)).
Proof.
  pose proof (step_tri_state
                (Dimension.new VerticalSpatialDimension vertical_dict)) as H.
  cbv zeta in H. destruct H as (Habs & _ & _ & _ & _ & _ & _ & _ & Hv).
  split.
  - apply Habs. reflexivity.
  - apply Hv. discriminate.
Defined.

(** ** Optional fields of a dimension *)

(** The fields of a class that are annotated optional are among six names. *)
Lemma optional_field_names (c : dimension_class) (name : string) :
  optional_field c name = true ->
  In name delete_on_none_fields \/ name = "step".
Proof.
  destruct c; resolve_attr; subst; simpl; auto 10.
Qed.

(** The view an assignment to an optional field returns. *)
Lemma optional_setattr_equations
    (self : Dimension.t) (name : string) :
  let p := Dimension.properties self in
  optional_field (Dimension.class_of self) name = true ->
  (In name delete_on_none_fields ->
   setattr self name PNone
   = Some (Dimension.with_properties self (delete name p))
   /\ forall v, v <> PNone ->
      setattr self name v
      = Some (Dimension.with_properties self (<[name := v]> p)))
  /\ (~ In name delete_on_none_fields ->
      name = "step"
      /\ setattr self name PNone
         = Some (Dimension.with_properties self (<[name := PNone]> p))).
Proof.
  intros p Hopt. split.
  - intros Hin. unfold p. clear p. destruct self as [c p].
    simpl in Hopt, Hin.
    destruct Hin as [<-|[<-|[<-|[<-|[<-|[]]]]]]; destruct c;
      try discriminate Hopt;
      (split; [|intros v Hv; apply is_none_false in Hv]);
      resolve_attr; autounfold with dim_setters; simpl;
      rewrite ?Hv; reflexivity.
  - intros Hnot.
    destruct (optional_field_names _ _ Hopt) as [Hin| ->]; [tauto|].
    split; [reflexivity | apply setattr_step].
Qed.

(** C4: on a view of any dimension class, for every field among
    [description], [extent], [values], [unit] and [reference_system] that
    the class declares as optional, assigning [None] removes the key from
    the mapping of the view (no null is stored under it) and assigning any
    other value stores that value under the key, the class of the view and
    the rest of the mapping staying as they were; an optional field that is
    not among these five is [step], whose setter keeps the key in the
    mapping with a null value. *)
Theorem optional_setters_delete_on_none
    (self : Dimension.t) (name : string) :
  let p := Dimension.properties self in
  optional_field (Dimension.class_of self) name = true ->
  (In name delete_on_none_fields ->
   (exists self',
      setattr self name PNone = Some self'
      /\ self' = Dimension.with_properties self (delete name p)
      /\ Dimension.class_of self' = Dimension.class_of self
      /\ Dimension.properties self' = delete name p
      /\ Dimension.properties self' !! name = None
      /\ dict_contains (Dimension.properties self') name = false)
   /\ forall v, v <> PNone ->
      exists self',
        setattr self name v = Some self'
        /\ self' = Dimension.with_properties self (<[name := v]> p)
        /\ Dimension.class_of self' = Dimension.class_of self
        /\ Dimension.properties self' = <[name := v]> p
        /\ Dimension.properties self' !! name = Some v
        /\ dict_contains (Dimension.properties self') name = true)
  /\ (~ In name delete_on_none_fields ->
      name = "step"
      /\ exists self',
           setattr self name PNone = Some self'
           /\ self' = Dimension.with_properties self (<[name := PNone]> p)
           /\ Dimension.class_of self' = Dimension.class_of self
           /\ Dimension.properties self' = <[name := PNone]> p
           /\ Dimension.properties self' !! name = Some PNone
           /\ dict_contains (Dimension.properties self') name = true).
Proof.
  intros p Hopt.
  destruct (optional_setattr_equations self name Hopt) as [Hfive Hstep].
  fold p in Hfive, Hstep. split.
  - intros Hin. destruct (Hfive Hin) as [Hnone Hval]. split.
    + eexists. split; [exact Hnone|]. split; [reflexivity|].
      split; [reflexivity|]. split; [reflexivity|]. simpl. split.
      * apply lookup_delete_eq.
      * apply dict_contains_false, lookup_delete_eq.
    + intros v Hv. eexists. split; [exact (Hval v Hv)|].
      split; [reflexivity|]. split; [reflexivity|].
      split; [reflexivity|]. simpl. split.
      * apply lookup_insert_eq.
      * apply dict_contains_true. rewrite lookup_insert_eq. eauto.
  - intros Hnot. destruct (Hstep Hnot) as [Hname Hset].
    split; [exact Hname|]. eexists. split; [exact Hset|].
    split; [reflexivity|]. split; [reflexivity|].
    split; [reflexivity|]. simpl. split.
    + apply lookup_insert_eq.
    + apply dict_contains_true. rewrite lookup_insert_eq. eauto.
Qed.

Lemma optional_setters_delete_on_none_witness :
  let self := Dimension.new VerticalSpatialDimension vertical_unit_dict in
  (exists self',
     setattr self "unit" PNone = Some self'
     /\ Dimension.properties self' = delete "unit" vertical_unit_dict
     /\ Dimension.properties self' !! "unit" = None)
  /\ (exists self',
        setattr self "unit" (PStr "m") = Some self'
        /\ Dimension.properties self'
           = <["unit" := PStr "m"]> vertical_unit_dict
        /\ Dimension.properties self' !! "unit" = Some (PStr "m"))
  /\ (exists self',
        setattr self "step" PNone = Some self'
        /\ Dimension.properties self'
           = <["step" := PNone]> vertical_unit_dict
        /\ Dimension.properties self' !! "step" = Some PNone).
Proof.
  intros self.
  destruct (optional_setters_delete_on_none self "unit" eq_refl)
    as [Hunit _].
  destruct (Hunit ltac:(simpl; tauto)) as [Hnone Hval].
  destruct (optional_setters_delete_on_none self "step" eq_refl)
    as [_ Hstep].
  destruct (Hstep ltac:(simpl; intuition discriminate)) as [_ Hnull].
  split; [|split].
  - destruct Hnone as (s & Hs & _ & _ & Hp & Hk & _).
    exists s. split; [exact Hs|]. split; [exact Hp | exact Hk].
  - destruct (Hval (PStr "m") ltac:(discriminate))
      as (s & Hs & _ & _ & Hp & Hk & _).
    exists s. split; [exact Hs|]. split; [exact Hp | exact Hk].
  - destruct Hnull as (s & Hs & _ & _ & Hp & Hk & _).
    exists s. split; [exact Hs|]. split; [exact Hp | exact Hk].
Defined.

(** The extent of a horizontal dimension is a required field: its getter
    checks it and its setter stores what it is given. *)
Lemma horizontal_extent_required (p : props) (v : pyval) :
  let self := Dimension.new HorizontalSpatialDimension p in
  optional_field HorizontalSpatialDimension "extent" = false
  /\ setattr self "extent" v
     = Some (Dimension.with_properties self (<["extent" := v]> p))
  /\ getattr self "extent"
     = Some (get_required (dict_get p "extent") "cube:dimension" "extent").
Proof. repeat split; resolve_attr; reflexivity. Qed.

(** ** The [axis] setter of the spatial dimensions *)

Lemma getattr_axis (self : Dimension.t) :
  Dimension.class_of self = HorizontalSpatialDimension
  \/ Dimension.class_of self = VerticalSpatialDimension ->
  getattr self "axis"
  = Some (get_required (dict_get (Dimension.properties self) "axis")
                       "cube:dimension" "axis").
Proof.
  destruct self as [c p]. simpl. intros [-> | ->]; resolve_attr; reflexivity.
Qed.

Lemma setattr_axis (self : Dimension.t) (v : pyval) :
  Dimension.class_of self = HorizontalSpatialDimension
  \/ Dimension.class_of self = VerticalSpatialDimension ->
  setattr self "axis" v
  = Some (Dimension.with_properties self
            (<["type" := v]> (Dimension.properties self))).
Proof.
  destruct self as [c p]. simpl. intros [-> | ->]; resolve_attr; reflexivity.
Qed.

Lemma getattr_dim_type (self : Dimension.t) :
  getattr self "dim_type"
  = Some (get_required (dict_get (Dimension.properties self) "type")
                       "cube:dimension" "type").
Proof. destruct self as [[] p]; resolve_attr; reflexivity. Qed.

Lemma get_required_ok_inv (x v : pyval) (obj prop : string) :
  get_required x obj prop = Ok v -> x = v.
Proof.
  unfold get_required, Raise, Ok. destruct (is_none x); congruence.
Qed.

(** C10: on a horizontal or vertical spatial dimension, assigning a string
    [v] to [axis] stores [v] under the [type] key and changes nothing else,
    the [axis] key included.  Reading [axis] afterwards gives what it gave
    before, the stored axis value when there is one, and does not give [v]
    unless [v] was already the stored axis; reading [dim_type] gives [v]. *)
Theorem axis_setter_writes_type (self : Dimension.t) (v : string) :
  let p := Dimension.properties self in
  Dimension.class_of self = HorizontalSpatialDimension
  \/ Dimension.class_of self = VerticalSpatialDimension ->
  exists self',
    setattr self "axis" (PStr v) = Some self'
    /\ Dimension.class_of self' = Dimension.class_of self
    /\ Dimension.properties self' = <["type" := PStr v]> p
    /\ Dimension.properties self' !! "type" = Some (PStr v)
    /\ Dimension.properties self' !! "axis" = p !! "axis"
    /\ getattr self' "axis" = getattr self "axis"
    /\ (forall a, p !! "axis" = Some a -> a <> PNone ->
        getattr self' "axis" = Some (Ok a))
    /\ (p !! "axis" <> Some (PStr v) ->
        getattr self' "axis" <> Some (Ok (PStr v)))
    /\ getattr self' "dim_type" = Some (Ok (PStr v)).
Proof.
  intros p Hcls. eexists. split; [now apply setattr_axis|]. fold p.
  set (self' := Dimension.with_properties self (<["type" := PStr v]> p)).
  assert (Hcls' : Dimension.class_of self' = HorizontalSpatialDimension
                  \/ Dimension.class_of self' = VerticalSpatialDimension)
    by exact Hcls.
  assert (Hax : Dimension.properties self' !! "axis" = p !! "axis")
    by (simpl; now apply lookup_insert_ne).
  assert (Hget : dict_get (Dimension.properties self') "axis"
                 = dict_get p "axis")
    by (unfold dict_get; now rewrite Hax).
  split; [reflexivity|]. split; [reflexivity|].
  split; [simpl; apply lookup_insert_eq|]. split; [exact Hax|].
  rewrite (getattr_axis self' Hcls'), (getattr_axis self Hcls), Hget. fold p.
  split; [reflexivity|]. split; [|split].
  - intros a Ha Hnone. rewrite (dict_get_lookup _ _ _ Ha).
    now rewrite get_required_ok.
  - intros Hne [= Heq]. apply get_required_ok_inv in Heq.
    unfold dict_get in Heq. destruct (p !! "axis") as [a|]; simpl in Heq;
      congruence.
  - rewrite getattr_dim_type. simpl.
    now rewrite (dict_get_lookup _ _ (PStr v) (lookup_insert_eq _ _ _)).
Qed.

Lemma axis_setter_writes_type_witness :
  exists self',
    setattr (Dimension.new HorizontalSpatialDimension horizontal_dict)
            "axis" (PStr "y") = Some self'
    /\ Dimension.properties self' !! "type" = Some (PStr "y")
    /\ getattr self' "axis" = Some (Ok (PStr "x"))
    /\ getattr self' "axis" <> Some (Ok (PStr "y"))
    /\ getattr self' "dim_type" = Some (Ok (PStr "y")).
Proof.
  destruct (axis_setter_writes_type
              (Dimension.new HorizontalSpatialDimension horizontal_dict) "y"
              (or_introl eq_refl))
    as (self' & Hset & _ & _ & Hty & _ & _ & Hold & Hnew & Hdim).
  exists self'. split; [exact Hset|]. split; [exact Hty|].
  split; [|split; [|exact Hdim]].
  - apply (Hold (PStr "x")); [reflexivity | discriminate].
  - apply Hnew. simpl. discriminate.
Defined.

(** ** Round trip *)

(** C5: a dimension view that [Dimension.from_dict] constructs from a
    mapping, and the variable view that [Variable.from_dict] constructs from
    it, serialize back with [to_dict], no field having been written, to the
    mapping they were given. *)
Theorem from_dict_to_dict_roundtrip (d : props) :
  (forall self, Dimension.from_dict d = Ok self -> Dimension.to_dict self = d)
  /\ CubeVariable.to_dict (CubeVariable.from_dict d) = d.
Proof.
  split; [|reflexivity].
  intros self Hself. unfold Dimension.to_dict.
  now apply from_dict_properties.
Qed.

Lemma from_dict_to_dict_roundtrip_witness :
  Dimension.from_dict temporal_dict
  = Ok (Dimension.new TemporalDimension temporal_dict)
  /\ Dimension.to_dict (Dimension.new TemporalDimension temporal_dict)
     = temporal_dict.
Proof.
  split; [reflexivity|].
  exact (proj1 (from_dict_to_dict_roundtrip temporal_dict) _ eq_refl).
Defined.

(** ** Variables *)

(** Reading [dimensions] raises on every variable view. *)
Lemma dimensions_raises (self : CubeVariable.t) :
  CubeVariable.dimensions self
  = Raise (TypeError "get expected at most 2 arguments, got 3").
Proof. reflexivity. Qed.

(** C6, the code at the scenario: on the variable above [var_type] reads
    ["data"], [unit] reads ["degrees C"] and [extent] reads [[0, 100]]; the
    mapping holds the three dimension names under [dimensions], and the
    [dimensions] accessor raises a [TypeError] instead of returning them. *)
Theorem variable_scenario :
  let var := CubeVariable.from_dict tmax_dict in
  CubeVariable.getattr var "var_type" = Some (Ok (PStr "data"))
  /\ CubeVariable.getattr var "unit" = Some (Ok (PStr "degrees C"))
  /\ CubeVariable.getattr var "extent"
     = Some (Ok (PList [PInt 0; PInt 100]))
  /\ CubeVariable.properties var !! "dimensions"
     = Some (PList [PStr "time"; PStr "y"; PStr "x"])
  /\ CubeVariable.getattr var "dimensions"
     = Some (Raise (TypeError "get expected at most 2 arguments, got 3"))
  /\ CubeVariable.getattr var "dimensions"
     <> Some (Ok (PList [PStr "time"; PStr "y"; PStr "x"])).
Proof.
  cbv zeta. split; [|split; [|split; [|split; [|split]]]];
    try reflexivity.
  discriminate.
Qed.

(** C7, counterexample: assigning [None] to the [step] of a variable
    whose mapping is [{"step": 1}] leaves the key in the mapping, with a
    null value. *)
Lemma variable_step_none_not_deleted :
  exists self',
    CubeVariable.setattr (CubeVariable.new step_dict) "step" PNone
    = Some self'
    /\ CubeVariable.properties self' !! "step" = Some PNone
    /\ dict_contains (CubeVariable.properties self') "step" = true.
Proof.
  exists (CubeVariable.new (<["step" := PNone]> step_dict)).
  split; [reflexivity|]. cbv [CubeVariable.properties]. split.
  - apply lookup_insert_eq.
  - apply dict_contains_true. rewrite lookup_insert_eq. eauto.
Qed.

(** C7, as amended: on every variable view each of [description],
    [extent], [step], [unit], [shape], [chunks] and [attrs] is declared
    optional, and assigning a value other than [None] stores it under that
    key; assigning [None] deletes the key for every one of them except
    [step], for which the key is kept with a null value. *)
Theorem variable_optional_setters (self : CubeVariable.t) (name : string) :
  let p := CubeVariable.properties self in
  In name variable_optional_fields ->
  annotated_optional <$> assoc name CubeVariable.class_dict = Some true
  /\ (forall v, v <> PNone ->
      CubeVariable.setattr self name v
      = Some (CubeVariable.new (<[name := v]> p)))
  /\ (name <> "step" ->
      CubeVariable.setattr self name PNone
      = Some (CubeVariable.new (delete name p)))
  /\ (name = "step" ->
      CubeVariable.setattr self name PNone
      = Some (CubeVariable.new (<[name := PNone]> p))).
Proof.
  intros p Hin. unfold p. clear p. destruct self as [p]. simpl in Hin.
  destruct Hin as [<-|[<-|[<-|[<-|[<-|[<-|[<-|[]]]]]]]];
    (split; [|split; [intros v Hv; apply is_none_false in Hv|split; intros Hs]]);
    try discriminate Hs; try congruence;
    resolve_var_attr;
    cbv [CubeVariable.set_description CubeVariable.set_extent
         CubeVariable.set_step CubeVariable.set_unit CubeVariable.set_shape
         CubeVariable.set_chunks CubeVariable.set_attrs dict_pop
         dict_setitem CubeVariable.properties];
    rewrite ?Hv; reflexivity.
Qed.

Lemma variable_optional_setters_witness :
  let self := CubeVariable.new tmax_dict in
  CubeVariable.setattr self "unit" PNone
  = Some (CubeVariable.new (delete "unit" tmax_dict))
  /\ CubeVariable.setattr self "unit" (PStr "K")
     = Some (CubeVariable.new (<["unit" := PStr "K"]> tmax_dict))
  /\ CubeVariable.setattr self "step" PNone
     = Some (CubeVariable.new (<["step" := PNone]> tmax_dict)).
Proof.
  intros self. split; [|split].
  - apply (variable_optional_setters self "unit");
      [simpl; tauto | discriminate].
  - apply (variable_optional_setters self "unit");
      [simpl; tauto | discriminate].
  - apply (variable_optional_setters self "step"); [simpl; tauto | reflexivity].
Defined.

(** ** The facade factory *)

(** C8: [ext] returns a collection-level facade over the collection's
    extra fields for a collection, an item-level facade over the item's
    properties for an item and an asset-level facade over the asset's
    properties for an asset; for an object of any other kind it fails with
    an extension-type error. *)
Theorem ext_dispatch (obj : pyobj) :
  match kind_of obj with
  | Some k =>
      exists f, DatacubeExtension.ext obj = Ok f
                /\ facade_kind f = k
                /\ Some (DatacubeExtension.properties f) = host_properties obj
  | None =>
      exists msg, DatacubeExtension.ext obj = Raise (ExtensionTypeError msg)
  end.
Proof.
  destruct obj as [c|i|a|n]; simpl; eexists; repeat split.
Qed.

(** C9: [ext] succeeds on every asset; the facade wraps the asset's own
    mapping; it chains the owning item's properties as the one mapping to
    fall back on for reads exactly when the asset's owner is an item; for
    an asset without an owner there is no fallback and no failure. *)
Theorem asset_facade_fallback (a : Asset) :
  exists f,
    DatacubeExtension.ext (ObjAsset a) = Ok f
    /\ facade_kind f = AssetKind
    /\ DatacubeExtension.properties f = asset_properties a
    /\ (is_Some (DatacubeExtension.additional_read_properties f)
        <-> exists item, owner a = Some (OwnerItem item))
    /\ (forall item, owner a = Some (OwnerItem item) ->
        DatacubeExtension.additional_read_properties f
        = Some [item_properties item])
    /\ (owner a = None ->
        DatacubeExtension.additional_read_properties f = None).
Proof.
  eexists. split; [reflexivity|]. simpl.
  split; [reflexivity|]. split; [reflexivity|].
  destruct (owner a) as [[item|c]|]; (split; [split|split]).
  - intros _. now exists item.
  - intros _. now exists (item_properties item :: nil).
  - now intros ? [= <-].
  - discriminate.
  - now intros [x Hx].
  - intros [item Hitem]. discriminate.
  - discriminate.
  - discriminate.
  - now intros [x Hx].
  - intros [item Hitem]. discriminate.
  - discriminate.
  - reflexivity.
Qed.

Lemma asset_facade_fallback_witness :
  (exists f, DatacubeExtension.ext (ObjAsset owned_asset) = Ok f
             /\ DatacubeExtension.additional_read_properties f
                = Some [item_properties example_item])
  /\ (exists f, DatacubeExtension.ext (ObjAsset ownerless_asset) = Ok f
                /\ DatacubeExtension.additional_read_properties f = None).
Proof.
  split.
  - destruct (asset_facade_fallback owned_asset)
      as (f & Hext & _ & _ & _ & Hitem & _).
    exists f. split; [exact Hext|]. apply Hitem. reflexivity.
  - destruct (asset_facade_fallback ownerless_asset)
      as (f & Hext & _ & _ & _ & _ & Hnone).
    exists f. split; [exact Hext|]. apply Hnone. reflexivity.
Defined.

(** What the chained mapping is for: a read through the facade of an asset
    owned by an item finds the asset's own value and, when the asset has
    none, the item's. *)
Lemma asset_facade_reads_owner (a : Asset) (item : Item) (k : string) :
  owner a = Some (OwnerItem item) ->
  DatacubeExtension._get_property
    (DatacubeExtension.AssetDatacubeExtension_init a) k
  = if is_none (dict_get (asset_properties a) k)
    then dict_get (item_properties item) k
    else dict_get (asset_properties a) k.
Proof.
  intros Howner.
  unfold DatacubeExtension._get_property,
    DatacubeExtension.AssetDatacubeExtension_init. simpl. rewrite Howner.
  simpl. destruct (is_none (dict_get (asset_properties a) k)); [|reflexivity].
  destruct (is_none (dict_get (item_properties item) k)) eqn:Hi;
    [|reflexivity].
  apply is_none_true in Hi. now rewrite Hi.
Qed.

(** * Further properties of the accessors *)

(** ** Reads of a written mapping *)

Lemma dict_get_insert_eq (d : props) (k : string) (v : pyval) :
  dict_get (<[k := v]> d) k = v.
Proof. unfold dict_get. now rewrite lookup_insert_eq. Qed.

Lemma dict_get_insert_ne (d : props) (k k' : string) (v : pyval) :
  k <> k' -> dict_get (<[k := v]> d) k' = dict_get d k'.
Proof. intros H. unfold dict_get. now rewrite lookup_insert_ne. Qed.

Lemma dict_get_delete_eq (d : props) (k : string) :
  dict_get (delete k d) k = PNone.
Proof. unfold dict_get. now rewrite lookup_delete_eq. Qed.

Lemma dict_get_delete_ne (d : props) (k k' : string) :
  k <> k' -> dict_get (delete k d) k' = dict_get d k'.
Proof. intros H. unfold dict_get. now rewrite lookup_delete_ne. Qed.

(** ** Dimension views: what an assignment changes *)

Lemma setattr_class_of
    (self self' : Dimension.t) (name : string) (v : pyval) :
  setattr self name v = Some self' ->
  Dimension.class_of self' = Dimension.class_of self.
Proof.
  intros Hset. destruct self as [c p].
  destruct c; each_setter Hset; autounfold with dim_accessors;
    try destruct (is_none v); reflexivity.
Qed.

Lemma setattr_lookup_other
    (self self' : Dimension.t) (name : string) (v : pyval) (k : string) :
  setattr self name v = Some self' ->
  k <> name ->
  (name = "dim_type" \/ name = "axis" -> k <> "type") ->
  Dimension.properties self' !! k = Dimension.properties self !! k.
Proof.
  intros Hset Hk Hty. destruct self as [c p].
  destruct c; each_setter Hset; autounfold with dim_accessors;
    cbv [Dimension.with_properties Dimension.properties Dimension.class_of
         dict_setitem dict_pop DIM_TYPE_PROP DIM_DESC_PROP DIM_AXIS_PROP
         DIM_EXTENT_PROP DIM_VALUES_PROP DIM_STEP_PROP DIM_REF_SYS_PROP
         DIM_UNIT_PROP];
    try destruct (is_none v);
    rewrite ?lookup_insert_ne, ?lookup_delete_ne;
    solve [reflexivity | congruence | intros <-; apply Hty; auto].
Qed.

Lemma setattr_lookup_frame
    (self self' : Dimension.t) (name : string) (v : pyval) (k : string) :
  setattr self name v = Some self' ->
  (name = "dim_type" \/ name = "axis" -> k <> "type") ->
  (name <> "dim_type" -> name <> "axis" -> k <> name) ->
  Dimension.properties self' !! k = Dimension.properties self !! k.
Proof.
  intros Hset Hty Hk. destruct self as [c p].
  destruct c; each_setter Hset; autounfold with dim_accessors;
    cbv [Dimension.with_properties Dimension.properties Dimension.class_of
         dict_setitem dict_pop DIM_TYPE_PROP DIM_DESC_PROP DIM_AXIS_PROP
         DIM_EXTENT_PROP DIM_VALUES_PROP DIM_STEP_PROP DIM_REF_SYS_PROP
         DIM_UNIT_PROP];
    try destruct (is_none v);
    rewrite ?lookup_insert_ne, ?lookup_delete_ne;
    solve [reflexivity
          | intros <-; apply Hty; auto
          | intros <-; apply Hk; solve [discriminate | reflexivity]].
Qed.

(** X1: an assignment to a property of a dimension view leaves the class of
    the view as it was and changes the mapping at one key at most: [type]
    when the property is [dim_type] or [axis], the key named after the
    property otherwise.  Every other key, the keys [dim_type] and [axis]
    after an assignment to [dim_type] or [axis] included, holds what it
    held. *)
Theorem setattr_frame
    (self self' : Dimension.t) (name : string) (v : pyval) (k : string) :
  setattr self name v = Some self' ->
  (name = "dim_type" \/ name = "axis" -> k <> "type") ->
  (name <> "dim_type" -> name <> "axis" -> k <> name) ->
  Dimension.class_of self' = Dimension.class_of self
  /\ Dimension.properties self' !! k = Dimension.properties self !! k.
Proof.
  intros Hset Hty Hk. split.
  - now apply (setattr_class_of self self' name v).
  - now apply (setattr_lookup_frame self self' name v).
Qed.

(** A mapping that happens to have keys named [dim_type] and [axis]. *)
Lemma setattr_frame_witness :
  let d : props :=
    <["dim_type" := PInt 1]> (<["unit" := PStr "hPa"]> vertical_dict) in
  (exists self',
     setattr (Dimension.new VerticalSpatialDimension d)
             "dim_type" (PStr "temporal") = Some self'
     /\ Dimension.class_of self' = VerticalSpatialDimension
     /\ Dimension.properties self' !! "dim_type" = Some (PInt 1))
  /\ (exists self',
        setattr (Dimension.new VerticalSpatialDimension d)
                "axis" (PStr "x") = Some self'
        /\ Dimension.class_of self' = VerticalSpatialDimension
        /\ Dimension.properties self' !! "axis" = Some (PStr "z"))
  /\ (exists self',
        setattr (Dimension.new VerticalSpatialDimension d)
                "extent" (PList [PInt 0; PInt 100]) = Some self'
        /\ Dimension.class_of self' = VerticalSpatialDimension
        /\ Dimension.properties self' !! "unit" = Some (PStr "hPa")).
Proof.
  intros d. split; [|split]; (eexists; split; [reflexivity|]).
  - apply (setattr_frame (Dimension.new VerticalSpatialDimension d) _
             "dim_type" (PStr "temporal") "dim_type");
      [reflexivity | discriminate | intros H; now contradiction H].
  - apply (setattr_frame (Dimension.new VerticalSpatialDimension d) _
             "axis" (PStr "x") "axis");
      [reflexivity | discriminate | intros _ H; now contradiction H].
  - apply (setattr_frame (Dimension.new VerticalSpatialDimension d) _
             "extent" (PList [PInt 0; PInt 100]) "unit");
      [reflexivity | intros [?|?]; discriminate | discriminate].
Defined.

(** ** Dimension views: reading what was written *)

(** X2: after a value other than [None] is assigned to a property of a
    dimension view, [axis] apart, reading the property returns that value. *)
Theorem getattr_after_setattr
    (self self' : Dimension.t) (name : string) (v : pyval) :
  setattr self name v = Some self' ->
  name <> "axis" -> v <> PNone ->
  getattr self' name = Some (Ok v).
Proof.
  intros Hset Hname Hv. pose proof Hv as Hnone. apply is_none_false in Hnone.
  destruct self as [c p].
  destruct c; each_setter Hset; try congruence;
    autounfold with dim_accessors; rewrite ?Hnone;
    cbv [Dimension.with_properties]; resolve_attr;
    autounfold with dim_accessors;
    cbv [Dimension.properties dict_setitem];
    rewrite dict_get_insert_eq, ?get_required_ok by assumption; reflexivity.
Qed.

Lemma getattr_after_setattr_witness :
  exists self',
    setattr (Dimension.new HorizontalSpatialDimension horizontal_dict)
            "extent" (PList [PInt 0; PInt 100]) = Some self'
    /\ getattr self' "extent" = Some (Ok (PList [PInt 0; PInt 100])).
Proof.
  eexists. split; [reflexivity|].
  apply (getattr_after_setattr
           (Dimension.new HorizontalSpatialDimension horizontal_dict) _
           "extent" (PList [PInt 0; PInt 100]));
    solve [reflexivity | discriminate].
Defined.

(** X3: after [None] is assigned to a property of a dimension view, [axis]
    apart: an optional property reads [None]; a required one ([dim_type],
    and [extent] on a horizontal dimension) has its key in the mapping with
    a null value and reading it raises. *)
Theorem getattr_after_setattr_none
    (self self' : Dimension.t) (name : string) :
  setattr self name PNone = Some self' ->
  name <> "axis" ->
  (optional_field (Dimension.class_of self) name = true ->
   getattr self' name = Some (Ok PNone))
  /\ (optional_field (Dimension.class_of self) name = false ->
      exists key,
        (key = name \/ (name = "dim_type" /\ key = "type"))
        /\ Dimension.properties self' !! key = Some PNone
        /\ getattr self' name
           = Some (Raise (RequiredPropertyMissing "cube:dimension" key))).
Proof.
  intros Hset Hname. destruct self as [c p].
  destruct c; each_setter Hset; try congruence;
    (split; [intros Hopt; try discriminate Hopt
            |intros Hopt; try discriminate Hopt]);
    autounfold with dim_accessors; cbv [is_none Dimension.with_properties];
    try (resolve_attr; autounfold with dim_accessors;
         cbv [Dimension.properties dict_setitem dict_pop];
         rewrite ?dict_get_insert_eq, ?dict_get_delete_eq; reflexivity).
  all: eexists; split; [|split];
    [|cbv [Dimension.properties dict_setitem]; apply lookup_insert_eq
     |resolve_attr; autounfold with dim_accessors;
      cbv [Dimension.properties dict_setitem];
      rewrite dict_get_insert_eq; reflexivity];
    auto.
Qed.

Lemma getattr_after_setattr_none_witness :
  (exists self',
     setattr (Dimension.new HorizontalSpatialDimension horizontal_dict)
             "values" PNone = Some self'
     /\ getattr self' "values" = Some (Ok PNone))
  /\ (exists self',
        setattr (Dimension.new HorizontalSpatialDimension horizontal_dict)
                "extent" PNone = Some self'
        /\ exists key,
             (key = "extent" \/ ("extent" = "dim_type" /\ key = "type"))
             /\ Dimension.properties self' !! key = Some PNone
             /\ getattr self' "extent"
                = Some (Raise (RequiredPropertyMissing "cube:dimension" key))).
Proof.
  split; eexists; (split; [reflexivity|]).
  - apply (getattr_after_setattr_none
             (Dimension.new HorizontalSpatialDimension horizontal_dict) _
             "values"); solve [reflexivity | discriminate].
  - apply (getattr_after_setattr_none
             (Dimension.new HorizontalSpatialDimension horizontal_dict) _
             "extent"); solve [reflexivity | discriminate].
Defined.

(** ** The classifier and the other keys *)

Lemma from_dict_same_discriminants (d d' : props) :
  dict_get d' "type" = dict_get d "type" ->
  dict_get d' "axis" = dict_get d "axis" ->
  Dimension.from_dict d'
  = match Dimension.from_dict d with
    | inl e => Raise e
    | inr self => Ok (Dimension.with_properties self d')
    end.
Proof.
  intros Hty Hax. unfold Dimension.from_dict, DIM_TYPE_PROP, DIM_AXIS_PROP.
  rewrite Hty, Hax.
  repeat match goal with
         | |- context [if ?b then _ else _] => destruct b
         end; reflexivity.
Qed.

(** X4: [from_dict] looks at the [type] and [axis] keys only: writing or
    removing any other key of the mapping changes neither the error nor the
    class of the result, which is a view of the new mapping. *)
Theorem from_dict_other_keys (d : props) (k : string) (v : pyval) :
  k <> "type" -> k <> "axis" ->
  Dimension.from_dict (<[k := v]> d)
  = match Dimension.from_dict d with
    | inl e => Raise e
    | inr self => Ok (Dimension.with_properties self (<[k := v]> d))
    end
  /\ Dimension.from_dict (delete k d)
     = match Dimension.from_dict d with
       | inl e => Raise e
       | inr self => Ok (Dimension.with_properties self (delete k d))
       end.
Proof.
  intros Hty Hax. split; apply from_dict_same_discriminants;
    solve [now apply dict_get_insert_ne | now apply dict_get_delete_ne].
Qed.

Lemma from_dict_other_keys_witness :
  Dimension.from_dict (<["step" := PInt 100]> vertical_dict)
  = Ok (Dimension.new VerticalSpatialDimension
          (<["step" := PInt 100]> vertical_dict)).
Proof.
  rewrite (proj1 (from_dict_other_keys vertical_dict "step" (PInt 100)
                    ltac:(discriminate) ltac:(discriminate))).
  reflexivity.
Defined.

(** A view is consistent when classifying its mapping again gives the
    view itself. *)
Lemma from_dict_consistent (d : props) (self : Dimension.t) :
  Dimension.from_dict d = Ok self ->
  Dimension.from_dict (Dimension.to_dict self) = Ok self.
Proof.
  intros H. unfold Dimension.to_dict.
  now rewrite (from_dict_properties d self H).
Qed.

(** X5: an assignment to a property other than [dim_type] and [axis] keeps a
    consistent view consistent: if classifying the mapping of the view gave
    the view before the assignment, it does so after it. *)
Theorem setattr_keeps_classification
    (self self' : Dimension.t) (name : string) (v : pyval) :
  Dimension.from_dict (Dimension.to_dict self) = Ok self ->
  setattr self name v = Some self' ->
  name <> "dim_type" -> name <> "axis" ->
  Dimension.from_dict (Dimension.to_dict self') = Ok self'.
Proof.
  intros Hcons Hset Hdt Hax.
  assert (Hty : Dimension.properties self' !! "type"
                = Dimension.properties self !! "type").
  { apply (setattr_lookup_other self self' name v "type" Hset).
    - destruct self as [c p]. destruct c; each_setter Hset; congruence.
    - intros [?|?]; congruence. }
  assert (Haxis : Dimension.properties self' !! "axis"
                  = Dimension.properties self !! "axis").
  { apply (setattr_lookup_other self self' name v "axis" Hset);
      [congruence | discriminate]. }
  assert (Hcls : Dimension.class_of self' = Dimension.class_of self)
    by apply (setattr_class_of self self' name v Hset).
  unfold Dimension.to_dict in *.
  rewrite (from_dict_same_discriminants (Dimension.properties self)
             (Dimension.properties self')), Hcons.
  - destruct self, self'. simpl in *. now subst.
  - unfold dict_get. now rewrite Hty.
  - unfold dict_get. now rewrite Haxis.
Qed.

Lemma setattr_keeps_classification_witness :
  exists self',
    setattr (Dimension.new VerticalSpatialDimension vertical_dict)
            "unit" (PStr "hPa") = Some self'
    /\ Dimension.from_dict (Dimension.to_dict self') = Ok self'.
Proof.
  eexists. split; [reflexivity|].
  apply (setattr_keeps_classification
           (Dimension.new VerticalSpatialDimension vertical_dict) _
           "unit" (PStr "hPa"));
    solve [reflexivity | discriminate].
Defined.

(** ** Writing a discriminant *)

(** X6: assigning a string [v] other than ["spatial"] to [dim_type], or to
    [axis] on a spatial dimension, keeps the class of the view, while
    classifying the mapping of the view again gives a temporal dimension
    for ["temporal"] and an additional dimension otherwise; a view of a
    spatial class therefore no longer agrees with its mapping. *)
Theorem discriminant_write_not_reclassified
    (self self' : Dimension.t) (name v : string) :
  name = "dim_type" \/ name = "axis" ->
  setattr self name (PStr v) = Some self' ->
  v <> "spatial" ->
  Dimension.class_of self' = Dimension.class_of self
  /\ Dimension.from_dict (Dimension.to_dict self')
     = Ok (Dimension.new
             (if decide (v = "temporal") then TemporalDimension
              else AdditionalDimension)
             (Dimension.to_dict self'))
  /\ (Dimension.class_of self = HorizontalSpatialDimension
      \/ Dimension.class_of self = VerticalSpatialDimension ->
      Dimension.from_dict (Dimension.to_dict self') <> Ok self').
Proof.
  intros Hname Hset Hv.
  assert (Hcls : Dimension.class_of self' = Dimension.class_of self)
    by apply (setattr_class_of self self' name (PStr v) Hset).
  assert (Hty : dict_get (Dimension.to_dict self') DIM_TYPE_PROP = PStr v).
  { destruct self as [c p].
    destruct Hname as [-> | ->]; destruct c; each_setter Hset;
      try congruence; apply dict_get_insert_eq. }
  assert (Hre : Dimension.from_dict (Dimension.to_dict self')
                = Ok (Dimension.new
                        (if decide (v = "temporal") then TemporalDimension
                         else AdditionalDimension)
                        (Dimension.to_dict self'))).
  { case_decide as Ht.
    - apply from_dict_temporal. now rewrite Hty, Ht.
    - apply from_dict_additional; rewrite Hty; congruence. }
  split; [exact Hcls|]. split; [exact Hre|].
  intros Hsp. rewrite Hre. intros [= Heq]. rewrite <- Heq in Hcls.
  simpl in Hcls. rewrite <- Hcls in Hsp.
  case_decide; destruct Hsp; discriminate.
Qed.

Lemma discriminant_write_not_reclassified_witness :
  exists self',
    setattr (Dimension.new VerticalSpatialDimension vertical_dict)
            "axis" (PStr "x") = Some self'
    /\ Dimension.class_of self' = VerticalSpatialDimension
    /\ Dimension.from_dict (Dimension.to_dict self')
       = Ok (Dimension.new AdditionalDimension (Dimension.to_dict self')).
Proof.
  eexists. split; [reflexivity|].
  destruct (discriminant_write_not_reclassified
              (Dimension.new VerticalSpatialDimension vertical_dict) _
              "axis" "x" (or_intror eq_refl) eq_refl ltac:(discriminate))
    as (Hcls & Hre & _).
  split; [exact Hcls | exact Hre].
Defined.

(** ** What a classified view holds *)

(** X7: the class of a view that [from_dict] returns tells what the mapping
    holds under [type] and [axis]: a vertical dimension has type
    ["spatial"] and axis ["z"], a horizontal one type ["spatial"] and an
    axis that is neither null nor ["z"], a temporal one type ["temporal"],
    an additional one a type that is none of null, ["spatial"] and
    ["temporal"]. *)
Theorem from_dict_class_inv (d : props) (self : Dimension.t) :
  Dimension.from_dict d = Ok self ->
  match Dimension.class_of self with
  | VerticalSpatialDimension =>
      dict_get d "type" = PStr "spatial" /\ dict_get d "axis" = PStr "z"
  | HorizontalSpatialDimension =>
      dict_get d "type" = PStr "spatial"
      /\ dict_get d "axis" <> PNone /\ dict_get d "axis" <> PStr "z"
  | TemporalDimension => dict_get d "type" = PStr "temporal"
  | AdditionalDimension =>
      dict_get d "type" <> PNone /\ dict_get d "type" <> PStr "spatial"
      /\ dict_get d "type" <> PStr "temporal"
  end.
Proof.
  unfold Dimension.from_dict, Raise, Ok, DIM_TYPE_PROP, DIM_AXIS_PROP.
  destruct (is_none (dict_get d "type")) eqn:Hnone; [discriminate|].
  apply is_none_false in Hnone.
  destruct (eq_str (dict_get d "type") "spatial") eqn:Hsp.
  - apply eq_str_true in Hsp.
    destruct (is_none (dict_get d "axis")) eqn:Hax; [discriminate|].
    apply is_none_false in Hax.
    destruct (eq_str (dict_get d "axis") "z") eqn:Hz; intros [= <-]; simpl.
    + now apply eq_str_true in Hz.
    + now apply eq_str_false in Hz.
  - apply eq_str_false in Hsp.
    destruct (eq_str (dict_get d "type") "temporal") eqn:Ht;
      intros [= <-]; simpl.
    + now apply eq_str_true in Ht.
    + now apply eq_str_false in Ht.
Qed.

Lemma from_dict_class_inv_witness :
  dict_get horizontal_dict "type" = PStr "spatial"
  /\ dict_get horizontal_dict "axis" <> PNone
  /\ dict_get horizontal_dict "axis" <> PStr "z".
Proof.
  exact (from_dict_class_inv horizontal_dict
           (Dimension.new HorizontalSpatialDimension horizontal_dict)
           eq_refl).
Defined.

(** X8: on a view that [from_dict] returns, reading [dim_type] does not raise,
    and on a spatial one reading [axis] does not raise either; [from_dict]
    does not look at [extent], and reading the extent of a horizontal
    dimension whose mapping has none, or a null one, raises. *)
Theorem from_dict_required_getters (d : props) (self : Dimension.t) :
  Dimension.from_dict d = Ok self ->
  getattr self "dim_type" = Some (Ok (dict_get d "type"))
  /\ (Dimension.class_of self = HorizontalSpatialDimension
      \/ Dimension.class_of self = VerticalSpatialDimension ->
      getattr self "axis" = Some (Ok (dict_get d "axis")))
  /\ (Dimension.class_of self = HorizontalSpatialDimension ->
      absent_or_null d "extent" ->
      getattr self "extent"
      = Some (Raise (RequiredPropertyMissing "cube:dimension" "extent"))).
Proof.
  intros Hself. pose proof (from_dict_class_inv d self Hself) as Hinv.
  pose proof (from_dict_properties d self Hself) as Hp.
  split; [|split].
  - rewrite getattr_dim_type, Hp. f_equal. apply get_required_ok.
    destruct (Dimension.class_of self).
    + destruct Hinv as [-> _]. discriminate.
    + destruct Hinv as [-> _]. discriminate.
    + rewrite Hinv. discriminate.
    + tauto.
  - intros Hcls. rewrite (getattr_axis self Hcls), Hp. f_equal.
    apply get_required_ok.
    destruct Hcls as [Hc|Hc]; rewrite Hc in Hinv.
    + tauto.
    + destruct Hinv as [_ ->]. discriminate.
  - intros Hcls Hext. apply dict_get_none_iff in Hext.
    destruct self as [c p]. simpl in Hcls, Hp. subst c p.
    resolve_attr. unfold HorizontalSpatialDimension.extent. simpl.
    unfold DIM_EXTENT_PROP. now rewrite Hext.
Qed.

Lemma from_dict_required_getters_witness :
  let self := Dimension.new HorizontalSpatialDimension horizontal_dict in
  getattr self "dim_type" = Some (Ok (dict_get horizontal_dict "type"))
  /\ getattr self "axis" = Some (Ok (dict_get horizontal_dict "axis"))
  /\ getattr self "extent"
     = Some (Raise (RequiredPropertyMissing "cube:dimension" "extent")).
Proof.
  intros self.
  destruct (from_dict_required_getters horizontal_dict self eq_refl)
    as (Hty & Hax & Hext).
  split; [exact Hty|]. split.
  - apply Hax. left. reflexivity.
  - apply Hext; [reflexivity | left; reflexivity].
Defined.

(** ** Composing assignments *)

(** X9: of two assignments to the same property of a dimension view the second
    one decides the result: the view is the one the second assignment alone
    would have given. *)
Theorem setattr_last_write_wins
    (self self1 : Dimension.t) (name : string) (v w : pyval) :
  setattr self name v = Some self1 ->
  setattr self1 name w = setattr self name w.
Proof.
  intros Hset. destruct self as [c p].
  destruct c; each_setter Hset;
    autounfold with dim_accessors;
    destruct (is_none v) eqn:Hv; cbv [Dimension.with_properties];
    resolve_attr; autounfold with dim_accessors;
    destruct (is_none w) eqn:Hw;
    cbv [Dimension.with_properties Dimension.properties Dimension.class_of
         dict_setitem dict_pop];
    rewrite ?insert_insert_eq, ?delete_insert_eq, ?insert_delete_eq,
      ?delete_delete_eq; reflexivity.
Qed.

Lemma setattr_last_write_wins_witness :
  setattr (Dimension.with_properties
             (Dimension.new VerticalSpatialDimension vertical_dict)
             (<["unit" := PStr "m"]> vertical_dict))
          "unit" PNone
  = setattr (Dimension.new VerticalSpatialDimension vertical_dict)
            "unit" PNone.
Proof.
  apply (setattr_last_write_wins
           (Dimension.new VerticalSpatialDimension vertical_dict) _
           "unit" (PStr "m") PNone).
  reflexivity.
Defined.

(** X10: [clear_step] after an assignment to [step] gives what [clear_step]
    alone gives, and [clear_step] twice is [clear_step] once.  On a view
    whose mapping has no [step] key, [clear_step] changes nothing and does
    not fail, and it undoes an assignment to [step]. *)
Theorem clear_step_composition (self : Dimension.t) (v : pyval) :
  let self_v :=
    Dimension.with_properties self
      (<["step" := v]> (Dimension.properties self)) in
  setattr self "step" v = Some self_v
  /\ clear_step self_v = clear_step self
  /\ clear_step (clear_step self) = clear_step self
  /\ (Dimension.properties self !! "step" = None ->
      clear_step self = self /\ clear_step self_v = self).
Proof.
  intros self_v.
  assert (Hsv : clear_step self_v = clear_step self).
  { unfold self_v. rewrite !clear_step_properties. simpl.
    now rewrite delete_insert_eq. }
  split; [apply setattr_step|]. split; [exact Hsv|]. split.
  - rewrite !clear_step_properties. simpl. now rewrite delete_delete_eq.
  - intros Habs.
    assert (Hid : clear_step self = self).
    { rewrite clear_step_properties, (delete_id _ _ Habs).
      now destruct self. }
    split; [exact Hid | now rewrite Hsv].
Qed.

Lemma clear_step_composition_witness :
  let self := Dimension.new VerticalSpatialDimension vertical_dict in
  clear_step self = self
  /\ clear_step (Dimension.with_properties self
                   (<["step" := PInt 100]> vertical_dict)) = self.
Proof.
  intros self.
  apply (clear_step_composition self (PInt 100)). reflexivity.
Defined.

(** ** Variable views *)

(** X11: after a value other than [None] is assigned to a property of a variable
    view, reading the property returns that value, except for [dimensions]:
    the value is stored under the key and reading raises a [TypeError]. *)
Theorem variable_getattr_after_setattr
    (self self' : CubeVariable.t) (name : string) (v : pyval) :
  CubeVariable.setattr self name v = Some self' ->
  v <> PNone ->
  (name <> "dimensions" -> CubeVariable.getattr self' name = Some (Ok v))
  /\ (name = "dimensions" ->
      CubeVariable.properties self' !! "dimensions" = Some v
      /\ CubeVariable.getattr self' name
         = Some (Raise (TypeError
                          "get expected at most 2 arguments, got 3"))).
Proof.
  intros Hset Hv. pose proof Hv as Hnone. apply is_none_false in Hnone.
  destruct self as [p].
  each_var_setter Hset; (split; intros Hname; try congruence);
    autounfold with var_accessors; rewrite ?Hnone;
    try (resolve_var_attr; autounfold with var_accessors;
         cbv [CubeVariable.properties dict_setitem];
         rewrite dict_get_insert_eq, ?get_required_ok by assumption;
         reflexivity).
  split; [apply lookup_insert_eq | reflexivity].
Qed.

Lemma variable_getattr_after_setattr_witness :
  (exists self',
     CubeVariable.setattr (CubeVariable.new tmax_dict) "shape"
       (PList [PInt 2; PInt 3]) = Some self'
     /\ CubeVariable.getattr self' "shape"
        = Some (Ok (PList [PInt 2; PInt 3])))
  /\ (exists self',
        CubeVariable.setattr (CubeVariable.new tmax_dict) "dimensions"
          (PList [PStr "x"]) = Some self'
        /\ CubeVariable.properties self' !! "dimensions"
           = Some (PList [PStr "x"])
        /\ CubeVariable.getattr self' "dimensions"
           = Some (Raise (TypeError
                            "get expected at most 2 arguments, got 3"))).
Proof.
  split; eexists; (split; [reflexivity|]).
  - apply (variable_getattr_after_setattr (CubeVariable.new tmax_dict) _
             "shape" (PList [PInt 2; PInt 3]));
      solve [reflexivity | discriminate].
  - apply (variable_getattr_after_setattr (CubeVariable.new tmax_dict) _
             "dimensions" (PList [PStr "x"]));
      solve [reflexivity | discriminate].
Defined.

(** X12: assigning [None] to one of the required properties of a variable view
    keeps the key in the mapping with a null value.  Reading [var_type]
    then raises the missing-required-property error of [cube:variables];
    reading [dimensions] raises a [TypeError]. *)
Theorem variable_required_set_none (self : CubeVariable.t) :
  let p := CubeVariable.properties self in
  let self_t := CubeVariable.new (<["type" := PNone]> p) in
  let self_d := CubeVariable.new (<["dimensions" := PNone]> p) in
  CubeVariable.setattr self "var_type" PNone = Some self_t
  /\ dict_contains (CubeVariable.properties self_t) "type" = true
  /\ CubeVariable.getattr self_t "var_type"
     = Some (Raise (RequiredPropertyMissing "cube:variables" "type"))
  /\ CubeVariable.setattr self "dimensions" PNone = Some self_d
  /\ dict_contains (CubeVariable.properties self_d) "dimensions" = true
  /\ CubeVariable.getattr self_d "dimensions"
     = Some (Raise (TypeError "get expected at most 2 arguments, got 3")).
Proof.
  intros p self_t self_d.
  split; [reflexivity|]. split.
  { apply dict_contains_true. simpl. rewrite lookup_insert_eq. eauto. }
  split.
  { resolve_var_attr. unfold CubeVariable.var_type. simpl.
    unfold VAR_TYPE_PROP. now rewrite dict_get_insert_eq. }
  split; [reflexivity|]. split; [|reflexivity].
  apply dict_contains_true. simpl. rewrite lookup_insert_eq. eauto.
Qed.

(** X13: the [values] property of a variable view reads the [unit] key: it
    returns what [unit] returns, it follows an assignment to [unit], and
    the [values] key of the mapping has no part in it.  The property has no
    setter. *)
Theorem variable_values_reads_unit (self : CubeVariable.t) (v : pyval) :
  let p := CubeVariable.properties self in
  CubeVariable.getattr self "values" = CubeVariable.getattr self "unit"
  /\ CubeVariable.getattr (CubeVariable.new (<["values" := v]> p)) "values"
     = CubeVariable.getattr self "values"
  /\ CubeVariable.getattr (CubeVariable.set_unit self v) "values"
     = Some (Ok v)
  /\ CubeVariable.setattr self "values" v = None.
Proof.
  intros p. split; [reflexivity|]. split; [|split; [|reflexivity]].
  - resolve_var_attr. unfold CubeVariable.values, DIM_UNIT_PROP. simpl.
    now rewrite dict_get_insert_ne.
  - resolve_var_attr. unfold CubeVariable.values, CubeVariable.set_unit.
    destruct (is_none v) eqn:Hv; simpl;
      unfold dict_pop, dict_setitem, DIM_UNIT_PROP, VAR_UNIT_PROP.
    + apply is_none_true in Hv. now rewrite dict_get_delete_eq, Hv.
    + now rewrite dict_get_insert_eq.
Qed.

(** X14: an assignment to a property of a variable view changes the mapping
    at one key at most: [type] when the property is [var_type], the key
    named after the property otherwise.  Every other key, the key [var_type]
    after an assignment to [var_type] included, holds what it held. *)
Theorem variable_setattr_frame
    (self self' : CubeVariable.t) (name : string) (v : pyval) (k : string) :
  CubeVariable.setattr self name v = Some self' ->
  (name = "var_type" -> k <> "type") ->
  (name <> "var_type" -> k <> name) ->
  CubeVariable.properties self' !! k = CubeVariable.properties self !! k.
Proof.
  intros Hset Hty Hk. destruct self as [p].
  each_var_setter Hset; autounfold with var_accessors;
    cbv [CubeVariable.properties dict_setitem dict_pop
         VAR_TYPE_PROP VAR_DESC_PROP VAR_DIMS_PROP VAR_EXTENT_PROP
         VAR_STEP_PROP VAR_UNIT_PROP VAR_SHAPE_PROP VAR_CHUNKS_PROP
         VAR_ATTRS_PROP];
    try destruct (is_none v); simpl;
    rewrite ?lookup_insert_ne, ?lookup_delete_ne;
    solve [reflexivity
          | intros <-; apply Hty; auto
          | intros <-; apply Hk; solve [discriminate | reflexivity]].
Qed.

Lemma variable_setattr_frame_witness :
  let d : props := <["var_type" := PInt 1]> tmax_dict in
  (exists self',
     CubeVariable.setattr (CubeVariable.new d) "var_type"
       (PStr "auxiliary") = Some self'
     /\ CubeVariable.properties self' !! "var_type" = Some (PInt 1))
  /\ (exists self',
        CubeVariable.setattr (CubeVariable.new d) "extent" PNone
        = Some self'
        /\ CubeVariable.properties self' !! "unit"
           = Some (PStr "degrees C")).
Proof.
  intros d. split; (eexists; split; [reflexivity|]).
  - apply (variable_setattr_frame (CubeVariable.new d) _
             "var_type" (PStr "auxiliary") "var_type");
      [reflexivity | discriminate | intros H; now contradiction H].
  - apply (variable_setattr_frame (CubeVariable.new d) _
             "extent" PNone "unit");
      [reflexivity | discriminate | discriminate].
Defined.
